(** * Densha controller ("mascon") emulation: control state to wire report

    A shallow embedding of [pcsx2/USB/usb-pad/usb-mascon.cpp] and of the state
    record of [usb-mascon.h]: the binding get/set contract, the hat-switch
    encoder, the four notch tables, the button remappers and the report
    serialiser [MasconState::TokenIn].

    Conventions.
    - [u8] and [u32] values are integers of [Z]; every store into a narrower
      field writes its wrap-around out ([Z.land _ 0xFF]).
    - C++ [float] is IEEE-754 binary32, modelled by the Standard Library's
      executable specification [spec_float] at precision 24 and maximal
      exponent 128.
    - the report buffer [u8* buf] is a list of bytes; a store outside the
      buffer has no defined behaviour in C++ and is modelled as failure
      ([None]).
    - the debug console line at the end of [TokenIn] is not modelled. *)

From Stdlib Require Import ZArith QArith Qabs Bool List Sorted Lia Lqa ZifyBool.
From Stdlib Require Import Floats.SpecFloat.
From stdpp Require Import base option list.

From Stdlib Require String.
Import String.StringSyntax.

Local Open Scope Z_scope.

(** ** Data model (usb-mascon.h) *)

Inductive MasconTypes : Set :=
| MT_TYPE2
| MT_SHINKANSEN
| MT_RYOJOUHEN
| MT_COUNT.

(** The anonymous [data] struct of [MasconState]. *)
Record MasconData : Set := mkData {
  hat_left : bool;
  hat_right : bool;
  hat_up : bool;
  hat_down : bool;
  power : Z;
  brake : Z;
  hatswitch : Z;
  buttons : Z
}.

(** [MasconState] without the handles of the USB framework ([dev], [desc],
    [desc_dev]), which none of the functions below reads or writes. *)
Record MasconState : Set := mkState {
  port : Z;
  type : MasconTypes;
  passthrough : bool;
  data : MasconData
}.

(** [data = {}]: every field zero-initialised. *)
Definition data_zero : MasconData :=
  mkData false false false false 0 0 0 0.

Definition set_data (s : MasconState) (d : MasconData) : MasconState :=
  mkState (port s) (type s) (passthrough s) d.

(** ** Binding indices ([enum MasconControlID]) *)

Inductive MasconControlID : Set :=
| CID_MC_POWER
| CID_MC_BRAKE
| CID_MC_UP
| CID_MC_RIGHT
| CID_MC_DOWN
| CID_MC_LEFT
| CID_MC_B
| CID_MC_A
| CID_MC_C
| CID_MC_D
| CID_MC_SELECT
| CID_MC_START.

(** The enumerators in declaration order; an enumerator's value is its
    position. *)
Definition control_ids : list MasconControlID :=
  [CID_MC_POWER; CID_MC_BRAKE; CID_MC_UP; CID_MC_RIGHT; CID_MC_DOWN;
   CID_MC_LEFT; CID_MC_B; CID_MC_A; CID_MC_C; CID_MC_D; CID_MC_SELECT;
   CID_MC_START].

Definition cid (c : MasconControlID) : Z :=
  match c with
  | CID_MC_POWER => 0
  | CID_MC_BRAKE => 1
  | CID_MC_UP => 2
  | CID_MC_RIGHT => 3
  | CID_MC_DOWN => 4
  | CID_MC_LEFT => 5
  | CID_MC_B => 6
  | CID_MC_A => 7
  | CID_MC_C => 8
  | CID_MC_D => 9
  | CID_MC_SELECT => 10
  | CID_MC_START => 11
  end.

Definition LENGTH : Z := 12.
Definition BUTTONS_OFFSET : Z := cid CID_MC_B.

(** Which [case] label a [u32 bind_index] selects; [None] is [default]. *)
Definition control_of_index (bind_index : Z) : option MasconControlID :=
  if (0 <=? bind_index) && (bind_index <? LENGTH)
  then control_ids !! Z.to_nat bind_index
  else None.

(** ** binary32 arithmetic *)

Definition f32_prec : Z := 24.
Definition f32_emax : Z := 128.

Definition f32_mul : spec_float -> spec_float -> spec_float :=
  SFmul f32_prec f32_emax.
Definition f32_div : spec_float -> spec_float -> spec_float :=
  SFdiv f32_prec f32_emax.
Definition f32_valid : spec_float -> bool :=
  valid_binary f32_prec f32_emax.

(** [static_cast<float>] of an integer. *)
Definition f32_of_Z (n : Z) : spec_float :=
  binary_normalize f32_prec f32_emax n 0 false.

(** [static_cast<float>] of a [bool]. *)
Definition f32_of_bool (b : bool) : spec_float :=
  f32_of_Z (if b then 1 else 0).

(** The literals [255.0f], [0.5f], [1.0f] and [0.0f]. *)
Definition f32_255 : spec_float := f32_of_Z 255.
Definition f32_half : spec_float :=
  binary_normalize f32_prec f32_emax 1 (-1) false.
Definition f32_one : spec_float := f32_of_Z 1.
Definition f32_zero : spec_float := S754_zero false.

(** [a >= b] on floats: false when either side is a NaN. *)
Definition f32_ge (a b : spec_float) : bool :=
  SFleb b a.

Definition f32_finite (x : spec_float) : bool :=
  match x with
  | S754_zero _ | S754_finite _ _ _ => true
  | _ => false
  end.

(** The rational a finite float denotes (0 for infinities and NaN). *)
Definition B2Q (x : spec_float) : Q :=
  match x with
  | S754_finite s m e =>
      let sm := if s then Z.neg m else Z.pos m in
      match e with
      | Z0 => inject_Z sm
      | Z.pos p => inject_Z (sm * 2 ^ Z.pos p)
      | Z.neg p => Qmake sm (2 ^ p)%positive
      end
  | _ => 0%Q
  end.

Definition LONG_MIN : Z := - 2 ^ 63.
Definition LONG_MAX : Z := 2 ^ 63 - 1.

(** The nearest integer to a finite float, halfway cases away from zero. *)
Definition round_half_away (s : bool) (m : positive) (e : Z) : Z :=
  let mag :=
    match e with
    | Z0 => Z.pos m
    | Z.pos _ => Z.pos m * 2 ^ e
    | Z.neg p => (Z.pos m + 2 ^ (Z.pos p - 1)) / 2 ^ Z.pos p
    end in
  if s then - mag else mag.

(** [std::clamp<long>(v, lo, hi)]. *)
Definition clamp (v lo hi : Z) : Z :=
  if v <? lo then lo else if hi <? v then hi else v.

(** ** Hat switch *)

(** The if-chain of [UpdateHatSwitch] on the four flags. *)
Definition hat_direction (up down left right : bool) : Z :=
  if up && right then 1
  else if right && down then 3
  else if down && left then 5
  else if left && up then 7
  else if up then 0
  else if right then 2
  else if down then 4
  else if left then 6
  else 8.

Definition UpdateHatSwitch (s : MasconState) : MasconState :=
  let d := data s in
  set_data s
    (mkData (hat_left d) (hat_right d) (hat_up d) (hat_down d)
       (power d) (brake d)
       (hat_direction (hat_up d) (hat_down d) (hat_left d) (hat_right d))
       (buttons d)).

(** ** Notch tables *)

(** The loop shared by the four [dct0x_*] functions: the output of the first
    pair whose [control_in] is at most [value], and the last pair's output
    when the loop falls through. *)
Fixpoint notch_scan (notches : list (Z * Z)) (last_out value : Z) : Z :=
  match notches with
  | [] => last_out
  | x :: rest => if value >=? x.1 then x.2 else notch_scan rest last_out value
  end.

Definition notch_lookup (notches : list (Z * Z)) (value : Z) : Z :=
  notch_scan notches (List.last notches (0, 0)).2 value.

Definition dct01_power_notches : list (Z * Z) :=
  [(0xF8, 0x00); (0xC8, 0x21); (0x98, 0x3F); (0x58, 0x54); (0x28, 0x6D);
   (0x00, 0x81)].

Definition dct01_brake_notches : list (Z * Z) :=
  [(0xF8, 0xB9); (0xE6, 0xB5); (0xCA, 0xB2); (0xAE, 0xAF); (0x92, 0xA8);
   (0x76, 0xA2); (0x5A, 0x9A); (0x3E, 0x94); (0x22, 0x8A); (0x00, 0x79)].

Definition dct02_power_notches : list (Z * Z) :=
  [(0xF7, 0xFB); (0xE4, 0xE9); (0xD1, 0xD7); (0xBE, 0xC6); (0xAB, 0xB4);
   (0x98, 0xA2); (0x85, 0x90); (0x72, 0x7E); (0x5F, 0x6C); (0x4C, 0x5A);
   (0x39, 0x48); (0x26, 0x36); (0x13, 0x24); (0x00, 0x12)].

Definition dct02_brake_notches : list (Z * Z) :=
  [(0xF8, 0xFB); (0xCA, 0xDF); (0xAE, 0xC3); (0x92, 0xA7); (0x76, 0x8B);
   (0x5A, 0x70); (0x3E, 0x54); (0x22, 0x38); (0x00, 0x1C)].

Definition dct01_power (value : Z) : Z := notch_lookup dct01_power_notches value.
Definition dct01_brake (value : Z) : Z := notch_lookup dct01_brake_notches value.
Definition dct02_power (value : Z) : Z := notch_lookup dct02_power_notches value.
Definition dct02_brake (value : Z) : Z := notch_lookup dct02_brake_notches value.

(** ** Buttons *)

(** [1u << (bind_index - BUTTONS_OFFSET)] in [u32]; only ever called with a
    button index, where the shift count is 0..5. *)
Definition button_mask (bind_index : Z) : Z :=
  Z.land (Z.shiftl 1 (bind_index - BUTTONS_OFFSET)) 0xFFFFFFFF.

(** [value & button_mask(index)], returned as [u8]. *)
Definition button_at (value index : Z) : Z :=
  Z.land (Z.land value (button_mask index)) 0xFF.

Definition get_ab (b : Z) : Z :=
  Z.lor (button_at b (cid CID_MC_A)) (button_at b (cid CID_MC_B)).
Definition swap_cd (b : Z) : Z :=
  Z.lor (Z.shiftl (button_at b (cid CID_MC_C)) 1)
        (Z.shiftr (button_at b (cid CID_MC_D)) 1).
Definition get_ss (b : Z) : Z :=
  Z.lor (button_at b (cid CID_MC_START)) (button_at b (cid CID_MC_SELECT)).

Definition dct01_buttons (b : Z) : Z := b.
Definition dct02_buttons (b : Z) : Z :=
  Z.land
    (Z.lor (Z.lor (Z.shiftl (get_ab b) 2) (Z.shiftr (swap_cd b) 2)) (get_ss b))
    0xFF.

(** ** Report buffer *)

(** [buf[i] = v]. *)
Definition buf_store (buf : list Z) (i : nat) (v : Z) : option (list Z) :=
  if decide (i < length buf)%nat then Some (<[i:=v]> buf) else None.

(** ** Field updates of [data] *)

Definition with_power (d : MasconData) (v : Z) : MasconData :=
  mkData (hat_left d) (hat_right d) (hat_up d) (hat_down d)
    v (brake d) (hatswitch d) (buttons d).
Definition with_brake (d : MasconData) (v : Z) : MasconData :=
  mkData (hat_left d) (hat_right d) (hat_up d) (hat_down d)
    (power d) v (hatswitch d) (buttons d).
Definition with_hat_up (d : MasconData) (b : bool) : MasconData :=
  mkData (hat_left d) (hat_right d) b (hat_down d)
    (power d) (brake d) (hatswitch d) (buttons d).
Definition with_hat_down (d : MasconData) (b : bool) : MasconData :=
  mkData (hat_left d) (hat_right d) (hat_up d) b
    (power d) (brake d) (hatswitch d) (buttons d).
Definition with_hat_left (d : MasconData) (b : bool) : MasconData :=
  mkData b (hat_right d) (hat_up d) (hat_down d)
    (power d) (brake d) (hatswitch d) (buttons d).
Definition with_hat_right (d : MasconData) (b : bool) : MasconData :=
  mkData (hat_left d) b (hat_up d) (hat_down d)
    (power d) (brake d) (hatswitch d) (buttons d).
Definition with_hatswitch (d : MasconData) (v : Z) : MasconData :=
  mkData (hat_left d) (hat_right d) (hat_up d) (hat_down d)
    (power d) (brake d) v (buttons d).
Definition with_buttons (d : MasconData) (v : Z) : MasconData :=
  mkData (hat_left d) (hat_right d) (hat_up d) (hat_down d)
    (power d) (brake d) (hatswitch d) v.

(** ** Reset and the binding contract *)

Definition Reset (s : MasconState) : MasconState :=
  set_data s (with_brake (with_power (data s) 0x00) 0x00).

Definition GetBindValue (s : MasconState) (bind_index : Z) : spec_float :=
  let d := data s in
  match control_of_index bind_index with
  | Some CID_MC_POWER => f32_div (f32_of_Z (power d)) f32_255
  | Some CID_MC_BRAKE => f32_div (f32_of_Z (brake d)) f32_255
  | Some CID_MC_UP => f32_of_bool (hat_up d)
  | Some CID_MC_DOWN => f32_of_bool (hat_down d)
  | Some CID_MC_LEFT => f32_of_bool (hat_left d)
  | Some CID_MC_RIGHT => f32_of_bool (hat_right d)
  | Some (CID_MC_A | CID_MC_B | CID_MC_C | CID_MC_D | CID_MC_SELECT
         | CID_MC_START) =>
      if negb (button_at (buttons d) bind_index =? 0) then f32_one else f32_zero
  | None => f32_zero
  end.

(** ** The bindings table ([MasconDevice::Bindings]) *)

Inductive InputBindingType : Set :=
| Axis
| Button.

Inductive GenericInputBinding : Set :=
| LeftStickDown
| LeftStickUp
| DPadUp
| DPadDown
| DPadLeft
| DPadRight
| Square
| Cross
| Circle
| Triangle
| Select
| Start.

(** [InputBindingInfo] without its icon, a macro of a header that is not among
    the sources. *)
Record InputBindingInfo : Set := mkBinding {
  name : String.string;
  display_name : String.string;
  bind_type : InputBindingType;
  bind_index : Z;
  generic_mapping : GenericInputBinding
}.

Arguments mkBinding (name display_name)%_string_scope bind_type
  bind_index%_Z_scope generic_mapping.

Definition MT_index (t : MasconTypes) : Z :=
  match t with
  | MT_TYPE2 => 0
  | MT_SHINKANSEN => 1
  | MT_RYOJOUHEN => 2
  | MT_COUNT => 3
  end.

Definition Bindings (subtype : Z) : list InputBindingInfo :=
  if (subtype =? MT_index MT_TYPE2) || (subtype =? MT_index MT_SHINKANSEN)
  then
    [ mkBinding "Power" "Power" Axis (cid CID_MC_POWER) LeftStickDown;
      mkBinding "Brake" "Brake" Axis (cid CID_MC_BRAKE) LeftStickUp;
      mkBinding "Up" "D-Pad Up" Button (cid CID_MC_UP) DPadUp;
      mkBinding "Down" "D-Pad Down" Button (cid CID_MC_DOWN) DPadDown;
      mkBinding "Left" "D-Pad Left" Button (cid CID_MC_LEFT) DPadLeft;
      mkBinding "Right" "D-Pad Right" Button (cid CID_MC_RIGHT) DPadRight;
      mkBinding "A" "A Button" Button (cid CID_MC_A) Square;
      mkBinding "B" "B Button" Button (cid CID_MC_B) Cross;
      mkBinding "C" "C Button" Button (cid CID_MC_C) Circle;
      mkBinding "D" "D Button" Button (cid CID_MC_D) Triangle;
      mkBinding "Select" "Select" Button (cid CID_MC_SELECT) Select;
      mkBinding "Start" "Start" Button (cid CID_MC_START) Start ]
  else [].

(** ** Construction and reset handler *)

(** [MasconState::MasconState(port_, type_)]: the default member
    initialisers, then [Reset]. *)
Definition MasconState_init (port_ : Z) (type_ : MasconTypes) : MasconState :=
  Reset (mkState port_ type_ false data_zero).

Definition mascon_handle_reset (s : MasconState) : MasconState :=
  Reset s.

(** ** Packets *)

(** The fields of [USBPacket] that [mascon_handle_data] touches ([ep_nr] is
    [p->ep->nr]); the struct itself is declared in [qusb.h].  The list
    [buffer_ptr] is the memory the pointer designates. *)
Record USBPacket : Set := mkPacket {
  pid : Z;
  ep_nr : Z;
  buffer_ptr : list Z;
  buffer_size : Z;
  actual_length : Z;
  status : Z
}.

Section Platform.

(** [USB_RET_IOERROR] comes from [USB/qemu-usb/qusb.h], which is not part of
    the sources at hand; it stays a parameter. *)
Variable USB_RET_IOERROR : Z.

(** What [lroundf] returns where C leaves its result unspecified: a NaN, an
    infinity, or a rounded value outside [long] (64 bits here). *)
Variable lroundf_unspecified : spec_float -> Z.

Definition lroundf (x : spec_float) : Z :=
  match x with
  | S754_zero _ => 0
  | S754_finite s m e =>
      let r := round_half_away s m e in
      if (LONG_MIN <=? r) && (r <=? LONG_MAX) then r else lroundf_unspecified x
  | _ => lroundf_unspecified x
  end.

(** [std::clamp<long>(std::lroundf(value * 255.0f), 0, 255)]. *)
Definition scaled_input (value : spec_float) : Z :=
  clamp (lroundf (f32_mul value f32_255)) 0 255.

(** The axis stores: [static_cast<u32>] of the above, assigned to a [u8]. *)
Definition axis_input (value : spec_float) : Z :=
  Z.land (Z.land (scaled_input value) 0xFFFFFFFF) 0xFF.

(** The hat stores: [static_cast<u8>] of the above, assigned to a one-bit
    [bool] field (nonzero is [true]). *)
Definition hat_input (value : spec_float) : bool :=
  negb (Z.land (scaled_input value) 0xFF =? 0).

Definition SetBindValue (s : MasconState) (bind_index : Z) (value : spec_float)
  : MasconState :=
  let d := data s in
  match control_of_index bind_index with
  | Some CID_MC_POWER => set_data s (with_power d (axis_input value))
  | Some CID_MC_BRAKE => set_data s (with_brake d (axis_input value))
  | Some CID_MC_UP =>
      UpdateHatSwitch (set_data s (with_hat_up d (hat_input value)))
  | Some CID_MC_DOWN =>
      UpdateHatSwitch (set_data s (with_hat_down d (hat_input value)))
  | Some CID_MC_LEFT =>
      UpdateHatSwitch (set_data s (with_hat_left d (hat_input value)))
  | Some CID_MC_RIGHT =>
      UpdateHatSwitch (set_data s (with_hat_right d (hat_input value)))
  | Some (CID_MC_A | CID_MC_B | CID_MC_C | CID_MC_D | CID_MC_SELECT
         | CID_MC_START) =>
      let mask := button_mask bind_index in
      if f32_ge value f32_half
      then set_data s (with_buttons d (Z.land (Z.lor (buttons d) mask) 0xFF))
      else set_data s
             (with_buttons d
                (Z.land (Z.land (buttons d) (Z.lxor mask 0xFFFFFFFF)) 0xFF))
  | None => s
  end.

(** ** Report serialisation *)

(** The result is [None] on a store outside the buffer, and otherwise the
    state after the call, the buffer after the call and the returned [int]. *)
Definition TokenIn (s : MasconState) (buf : list Z) (len : Z)
  : option (MasconState * list Z * Z) :=
  let s := UpdateHatSwitch s in
  let d := data s in
  match type s with
  | MT_TYPE2 =>
      buf ← buf_store buf 0 0x1;
      buf ← buf_store buf 1 (dct01_brake (brake d));
      buf ← buf_store buf 2 (dct01_power (power d));
      buf ← buf_store buf 3 0xFF;
      buf ← buf_store buf 4 (Z.land (hatswitch d) 0x0F);
      buf ← buf_store buf 5 (dct01_buttons (buttons d));
      let len := 6 in
      Some (s, buf, len)
  | MT_SHINKANSEN =>
      buf ← buf_store buf 0 (dct02_brake (brake d));
      buf ← buf_store buf 1 (dct02_power (power d));
      buf ← buf_store buf 2 0xFF;
      buf ← buf_store buf 3 (Z.land (hatswitch d) 0x0F);
      buf ← buf_store buf 4 (dct02_buttons (buttons d));
      buf ← buf_store buf 5 0;
      let len := 6 in
      Some (s, buf, len)
  | _ => Some (s, buf, USB_RET_IOERROR)
  end.

(** ** Specification-side definitions *)

(** The hat-switch rules as an ordered list of (condition, code) pairs on
    (up, down, left, right); the first rule whose condition holds wins, and 8
    (neutral) is the code when none does. *)
Definition hat_rules : list ((bool * bool * bool * bool -> bool) * Z) :=
  [ (fun '(u, d, l, r) => u && r, 1);
    (fun '(u, d, l, r) => r && d, 3);
    (fun '(u, d, l, r) => d && l, 5);
    (fun '(u, d, l, r) => l && u, 7);
    (fun '(u, d, l, r) => u, 0);
    (fun '(u, d, l, r) => r, 2);
    (fun '(u, d, l, r) => d, 4);
    (fun '(u, d, l, r) => l, 6) ].

Definition hat_first_match (up down left right : bool) : Z :=
  match List.find (fun rule => rule.1 (up, down, left, right)) hat_rules with
  | Some rule => rule.2
  | None => 8
  end.

(** The stored [hatswitch] agrees with the four flags. *)
Definition hat_fresh (s : MasconState) : Prop :=
  let d := data s in
  hatswitch d = hat_direction (hat_up d) (hat_down d) (hat_left d) (hat_right d).

(** A table whose outputs, read down the list, never move against [R], and
    whose fall-through output is [R]-below every listed output. *)
Definition staircase (R : Z -> Z -> Prop) (notches : list (Z * Z))
    (last_out : Z) : Prop :=
  StronglySorted (fun a b => R b.2 a.2) notches /\
  Forall (fun a => R last_out a.2) notches.

(** All integers of [lo, lo + n). *)
Definition Zrange (lo : Z) (n : nat) : list Z :=
  map (fun k => lo + Z.of_nat k) (seq 0 n).

(** ** Sample states *)

(** Type 2, power fully applied, brake released, nothing pressed. *)
Definition type2_full_power : MasconState :=
  mkState 0 MT_TYPE2 false (mkData false false false false 0xFF 0x00 8 0).

(** A Ryojouhen device holding up and B, with a stored [hatswitch] of 0. *)
Definition ryojouhen_sample : MasconState :=
  mkState 0 MT_RYOJOUHEN false (mkData false false true false 0x40 0x20 0 1).

(** Shinkansen, up and right held, [hatswitch] still at its initial 0,
    A and Start pressed. *)
Definition shinkansen_sample : MasconState :=
  mkState 1 MT_SHINKANSEN false (mkData false true true false 0x80 0x10 0 0x22).

(** ** Wire byte back to logical buttons *)

(** The Shinkansen remap read backwards: wire bits 2..3 return to bits 0..1
    (B, A), wire bit 1 to bit 2 (C), wire bit 0 to bit 3 (D), and bits 4..5
    (Select, Start) stay. *)
Definition dct02_buttons_inv (w : Z) : Z :=
  Z.lor (Z.shiftr (Z.land w 0x0C) 2)
    (Z.lor (Z.shiftl (Z.land w 0x02) 1)
       (Z.lor (Z.shiftl (Z.land w 0x01) 3) (Z.land w 0x30))).

(** What the six-button checks below test at one byte. *)
Definition dct02_buttons_check (b : Z) : bool :=
  (dct02_buttons_inv (dct02_buttons b) =? b) &&
  (dct02_buttons (dct02_buttons_inv b) =? b) &&
  (0 <=? dct02_buttons b) && (dct02_buttons b <? 64) &&
  (0 <=? dct02_buttons_inv b) && (dct02_buttons_inv b <? 64) &&
  (dct02_buttons b =?
     Z.lor
       (Z.lor
          (Z.shiftl (Z.lor (Z.land b 0x02) (Z.land b 0x01)) 2)
          (Z.shiftr
             (Z.lor (Z.shiftl (Z.land b 0x04) 1) (Z.shiftr (Z.land b 0x08) 1))
             2))
       (Z.lor (Z.land b 0x20) (Z.land b 0x10))) &&
  eqb (Z.testbit (dct02_buttons b) 0) (Z.testbit b 3) &&
  eqb (Z.testbit (dct02_buttons b) 1) (Z.testbit b 2) &&
  eqb (Z.testbit (dct02_buttons b) 2) (Z.testbit b 0) &&
  eqb (Z.testbit (dct02_buttons b) 3) (Z.testbit b 1) &&
  eqb (Z.testbit (dct02_buttons b) 4) (Z.testbit b 4) &&
  eqb (Z.testbit (dct02_buttons b) 5) (Z.testbit b 5).

(** ** Rounding invariant *)

(** [mrs] is [M] shifted right by [log2 w] places: its mantissa is the
    quotient, its round bit says whether the remainder reaches half of [w],
    and its sticky bit whether the remainder is neither 0 nor that half. *)
Definition shr_inv (M w : Z) (mrs : shr_record) : Prop :=
  let rem := M - shr_m mrs * w in
  0 <= shr_m mrs /\
  0 <= rem < w /\
  shr_r mrs = (w <=? 2 * rem) /\
  shr_s mrs = negb (rem =? 0) && negb (2 * rem =? w).

(** ** Reading an axis back *)

(** [static_cast<float>(raw) / 255.0f] is within a quarter of [raw / 255],
    in units of 1/255. *)
Definition axis_readback_check (raw : Z) : bool :=
  Qle_bool
    (Qabs (255 * B2Q (f32_div (f32_of_Z raw) f32_255) - inject_Z raw))
    (1 # 4).

(** ** The data handler and device creation *)

(** [USB_TOKEN_IN] and [USB_RET_STALL] are further constants of [qusb.h]. *)
Variable USB_TOKEN_IN : Z.
Variable USB_RET_STALL : Z.

Definition set_status (p : USBPacket) (st : Z) : USBPacket :=
  mkPacket (pid p) (ep_nr p) (buffer_ptr p) (buffer_size p) (actual_length p) st.

(** [mascon_handle_data]; [None] when [TokenIn] stores outside the buffer.
    The widths of [actual_length] and [status] are not in the sources, so the
    sum is left unwrapped. *)
Definition mascon_handle_data (s : MasconState) (p : USBPacket)
  : option (MasconState * USBPacket) :=
  if pid p =? USB_TOKEN_IN then
    if ep_nr p =? 1 then
      r ← TokenIn s (buffer_ptr p) (buffer_size p);
      let '(s', buf, ret) := r in
      if 0 <? ret
      then Some (s',
                 mkPacket (pid p) (ep_nr p) buf (buffer_size p)
                   (actual_length p
                    + Z.min (Z.land ret 0xFFFFFFFF) (buffer_size p))
                   (status p))
      else Some (s',
                 mkPacket (pid p) (ep_nr p) buf (buffer_size p)
                   (actual_length p) ret)
    else Some (s, set_status p USB_RET_STALL)
  else Some (s, set_status p USB_RET_STALL).

(** What [usb_desc_parse_dev] returns on the device descriptor of a model and
    what [usb_desc_parse_config] returns on the shared configuration
    descriptor; both functions belong to the USB framework. *)
Variable usb_desc_parse_dev : MasconTypes -> Z.
Variable usb_desc_parse_config : Z.

(** [MasconDevice::CreateDevice], as far as the controller state goes: [None]
    is the [nullptr] of the [fail] path, on which the state is destroyed. *)
Definition CreateDevice (port_ subtype : Z) : option MasconState :=
  s ← (if subtype =? MT_index MT_TYPE2 then
         if usb_desc_parse_dev MT_TYPE2 <? 0 then None
         else Some (MasconState_init port_ MT_TYPE2)
       else if subtype =? MT_index MT_SHINKANSEN then
         if usb_desc_parse_dev MT_SHINKANSEN <? 0 then None
         else Some (MasconState_init port_ MT_SHINKANSEN)
       else None);
  if usb_desc_parse_config <? 0 then None
  else Some (mascon_handle_reset s).

(** ** Sequences of calls *)

Inductive call : Set :=
| CallSetBindValue (bind_index : Z) (value : spec_float)
| CallReset
| CallTokenIn (buf : list Z) (len : Z).

Definition step (s : MasconState) (c : call) : option MasconState :=
  match c with
  | CallSetBindValue i v => Some (SetBindValue s i v)
  | CallReset => Some (Reset s)
  | CallTokenIn buf len => r ← TokenIn s buf len; Some r.1.1
  end.

Fixpoint run (s : MasconState) (calls : list call) : option MasconState :=
  match calls with
  | [] => Some s
  | c :: rest => s' ← step s c; run s' rest
  end.

(** Every field of [data] within its declared width, the hat code within its
    nine values and no bit above the six buttons set. *)
Definition state_ok (s : MasconState) : Prop :=
  let d := data s in
  0 <= power d <= 255 /\ 0 <= brake d <= 255 /\
  0 <= hatswitch d <= 8 /\ 0 <= buttons d < 64.

Definition supported (t : MasconTypes) : bool :=
  match t with
  | MT_TYPE2 | MT_SHINKANSEN => true
  | MT_RYOJOUHEN | MT_COUNT => false
  end.

(** Storing the float an axis reads as gives back the stored byte. *)
Definition axis_get_set_check (raw : Z) : bool :=
  axis_input (f32_div (f32_of_Z raw) f32_255) =? raw.

(** The six button indices and the four hat indices. *)
Definition button_indices : list Z :=
  map cid [CID_MC_B; CID_MC_A; CID_MC_C; CID_MC_D; CID_MC_SELECT; CID_MC_START].

(** One byte of buttons against every button index: pressing sets that
    button's bit and nothing else, releasing clears it and nothing else, and
    both stay below 64 when the byte was; a second write to the same button
    gives what that write alone would have given. *)
Definition button_write_check (b : Z) : bool :=
  forallb
    (fun i =>
       let m := button_mask i in
       let on := Z.land (Z.lor b m) 0xFF in
       let off := Z.land (Z.land b (Z.lxor m 0xFFFFFFFF)) 0xFF in
       negb (button_at on i =? 0) && (button_at off i =? 0) &&
       (if button_at b i =? 0 then off =? b else on =? b) &&
       (Z.land (Z.lor on m) 0xFF =? on) && (Z.land (Z.lor off m) 0xFF =? on) &&
       (Z.land (Z.land on (Z.lxor m 0xFFFFFFFF)) 0xFF =? off) &&
       (Z.land (Z.land off (Z.lxor m 0xFFFFFFFF)) 0xFF =? off) &&
       ((64 <=? b) || ((on <? 64) && (off <? 64))) &&
       forallb
         (fun j =>
            (j =? i) ||
            ((button_at on j =? button_at b j) &&
             (button_at off j =? button_at b j)))
         button_indices)
    button_indices.

(** What a notch function [f] owes its table at [value]: its result is one of
    the listed outputs, the fall-through return is not what produced it, and
    every row's own threshold gives that row's output. *)
Definition notch_reached (f : Z -> Z) (notches : list (Z * Z)) (value : Z)
  : Prop :=
  In (f value) (map snd notches) /\
  (forall d, notch_scan notches d value = f value) /\
  Forall (fun row => f row.1 = row.2) notches.

Definition is_byte (b : Z) : Prop := 0 <= b <= 255.

(** What a button binding reads after [value] was written to it: whether
    [value >= 0.5f] holds, told from the number [value] denotes. *)
Definition pressed (value : spec_float) : bool :=
  match value with
  | S754_nan => false
  | S754_infinity sign => negb sign
  | S754_zero _ | S754_finite _ _ _ => Qle_bool (1 # 2) (B2Q value)
  end.

(** Where a model's report carries the brake and the power notch, and the
    tables that produce them. *)
Definition brake_position (t : MasconTypes) : nat :=
  match t with MT_TYPE2 => 1 | _ => 0 end.
Definition power_position (t : MasconTypes) : nat :=
  match t with MT_TYPE2 => 2 | _ => 1 end.
Definition brake_notches (t : MasconTypes) : list (Z * Z) :=
  match t with
  | MT_TYPE2 => dct01_brake_notches
  | MT_SHINKANSEN => dct02_brake_notches
  | _ => []
  end.
Definition power_notches (t : MasconTypes) : list (Z * Z) :=
  match t with
  | MT_TYPE2 => dct01_power_notches
  | MT_SHINKANSEN => dct02_power_notches
  | _ => []
  end.

(** The float an axis holding [raw] reads as. *)
Definition axis_reading (raw : Z) : spec_float :=
  f32_div (f32_of_Z raw) f32_255.

(** ** Buttons on the wire *)

Definition buttons_position (t : MasconTypes) : nat :=
  match t with MT_TYPE2 => 5 | _ => 4 end.

Definition remap (t : MasconTypes) (b : Z) : Z :=
  match t with MT_TYPE2 => dct01_buttons b | _ => dct02_buttons b end.

(** The bit of the report's button byte that the button of a binding index
    occupies: Type 2 keeps the order B, A, C, D, Select, Start from bit 0;
    Shinkansen has D, C, B, A, Select, Start. *)
Definition wire_bit (t : MasconTypes) (bind_index : Z) : Z :=
  match t with
  | MT_TYPE2 => bind_index - BUTTONS_OFFSET
  | _ =>
      List.nth (Z.to_nat (bind_index - BUTTONS_OFFSET)) [2; 3; 1; 0; 4; 5] 0
  end.

(** One byte of buttons against every button index and both supported
    models: after a press the index's wire bit is set, after a release it
    is clear, and the other seven wire bits are what they were. *)
Definition button_wire_check (b : Z) : bool :=
  forallb
    (fun t =>
       forallb
         (fun i =>
            let m := button_mask i in
            let on := Z.land (Z.lor b m) 0xFF in
            let off := Z.land (Z.land b (Z.lxor m 0xFFFFFFFF)) 0xFF in
            Z.testbit (remap t on) (wire_bit t i) &&
            negb (Z.testbit (remap t off) (wire_bit t i)) &&
            forallb
              (fun n =>
                 (n =? wire_bit t i) ||
                 (eqb (Z.testbit (remap t on) n) (Z.testbit (remap t b) n) &&
                  eqb (Z.testbit (remap t off) n) (Z.testbit (remap t b) n)))
              (Zrange 0 8))
         button_indices)
    [MT_TYPE2; MT_SHINKANSEN].

(** The byte of a model's report that a control lands in. *)
Definition hat_position (t : MasconTypes) : nat :=
  match t with MT_TYPE2 => 4 | _ => 3 end.

Definition report_position (t : MasconTypes) (c : MasconControlID) : nat :=
  match c with
  | CID_MC_POWER => power_position t
  | CID_MC_BRAKE => brake_position t
  | CID_MC_UP | CID_MC_RIGHT | CID_MC_DOWN | CID_MC_LEFT => hat_position t
  | CID_MC_B | CID_MC_A | CID_MC_C | CID_MC_D | CID_MC_SELECT
  | CID_MC_START => buttons_position t
  end.

(** * Properties *)

(** ** Hat switch *)

Lemma hat_direction_first_match (up down left right : bool) :
  hat_direction up down left right = hat_first_match up down left right.
Proof. destruct up, down, left, right; reflexivity. Qed.

Lemma hat_direction_range (up down left right : bool) :
  0 <= hat_direction up down left right <= 8.
Proof. destruct up, down, left, right; cbn; lia. Qed.

Lemma UpdateHatSwitch_fresh (s : MasconState) : hat_fresh (UpdateHatSwitch s).
Proof. reflexivity. Qed.

(** C3: the hat-switch encoder stays within 0..8 on all sixteen flag
    combinations, is the first-match reading of the rule list (diagonals
    before single flags, 8 when nothing matches), and its sixteen values are
    the ones listed; up together with down gives 0. *)
Theorem hat_switch_table (up down left right : bool) (s : MasconState) :
  0 <= hat_direction up down left right <= 8 /\
  hat_direction up down left right = hat_first_match up down left right /\
  hatswitch (data (UpdateHatSwitch s)) =
    hat_first_match (hat_up (data s)) (hat_down (data s))
      (hat_left (data s)) (hat_right (data s)) /\
  (* up down left right *)
  hat_direction false false false false = 8 /\
  hat_direction false false false true = 2 /\
  hat_direction false false true false = 6 /\
  hat_direction false false true true = 2 /\
  hat_direction false true false false = 4 /\
  hat_direction false true false true = 3 /\
  hat_direction false true true false = 5 /\
  hat_direction false true true true = 3 /\
  hat_direction true false false false = 0 /\
  hat_direction true false false true = 1 /\
  hat_direction true false true false = 7 /\
  hat_direction true false true true = 1 /\
  hat_direction true true false false = 0 /\
  hat_direction true true false true = 1 /\
  hat_direction true true true false = 5 /\
  hat_direction true true true true = 1.
Proof.
  split; [apply hat_direction_range|].
  split; [apply hat_direction_first_match|].
  split; [cbn [UpdateHatSwitch set_data data hatswitch];
          apply hat_direction_first_match|].
  repeat split.
Qed.

(** ** Notch tables *)

Section Staircase.

Variable R : Z -> Z -> Prop.
Context `{!PreOrder R}.

Lemma notch_scan_bound (notches : list (Z * Z)) (last_out b value : Z) :
  R last_out b ->
  Forall (fun a => R a.2 b) notches ->
  R (notch_scan notches last_out value) b.
Proof.
  intros Hlast Hall.
  induction Hall as [|a rest Ha _ IH]; cbn [notch_scan]; [exact Hlast|].
  destruct (value >=? a.1); assumption.
Qed.

Lemma notch_scan_monotone (notches : list (Z * Z)) (last_out x y : Z) :
  staircase R notches last_out ->
  x <= y ->
  R (notch_scan notches last_out x) (notch_scan notches last_out y).
Proof.
  intros [Hsorted Hlast] Hxy.
  induction notches as [|a rest IH]; cbn [notch_scan]; [reflexivity|].
  apply StronglySorted_inv in Hsorted as [Hrest Hhead].
  apply Forall_cons in Hlast as [Ha Hlast].
  rewrite !Z.geb_leb.
  destruct (Z.leb_spec a.1 x) as [Hx|Hx], (Z.leb_spec a.1 y) as [Hy|Hy].
  - reflexivity.
  - lia.
  - apply notch_scan_bound; assumption.
  - apply IH; assumption.
Qed.

End Staircase.

Ltac staircase_table :=
  split;
  repeat first [ apply SSorted_nil | apply SSorted_cons
               | apply Forall_nil_2 | apply Forall_cons_2 ];
  cbv; congruence.

Lemma dct01_brake_staircase :
  staircase Z.le dct01_brake_notches (List.last dct01_brake_notches (0, 0)).2.
Proof. staircase_table. Qed.

Lemma dct02_power_staircase :
  staircase Z.le dct02_power_notches (List.last dct02_power_notches (0, 0)).2.
Proof. staircase_table. Qed.

Lemma dct02_brake_staircase :
  staircase Z.le dct02_brake_notches (List.last dct02_brake_notches (0, 0)).2.
Proof. staircase_table. Qed.

(** The Type 2 power table runs the other way: its fall-through output 0x81
    is the largest. *)
Lemma dct01_power_staircase :
  staircase (flip Z.le) dct01_power_notches
    (List.last dct01_power_notches (0, 0)).2.
Proof. staircase_table. Qed.

(** C1: on bytes, the Type 2 brake, Shinkansen power and Shinkansen brake
    tables are monotone non-decreasing in their input, and the Type 2 power
    table is monotone non-increasing. *)
Theorem notch_tables_monotone (x y : Z) :
  0 <= x -> x <= y -> y <= 255 ->
  dct01_brake x <= dct01_brake y /\
  dct02_power x <= dct02_power y /\
  dct02_brake x <= dct02_brake y /\
  dct01_power y <= dct01_power x.
Proof.
  intros _ Hxy _.
  split; [|split; [|split]].
  - exact (notch_scan_monotone Z.le _ _ x y dct01_brake_staircase Hxy).
  - exact (notch_scan_monotone Z.le _ _ x y dct02_power_staircase Hxy).
  - exact (notch_scan_monotone Z.le _ _ x y dct02_brake_staircase Hxy).
  - exact (notch_scan_monotone (flip Z.le) _ _ x y dct01_power_staircase Hxy).
Qed.

(** ** Report serialisation *)

Lemma buf_store_lt (buf : list Z) (i : nat) (v : Z) :
  (i < length buf)%nat -> buf_store buf i v = Some (<[i:=v]> buf).
Proof. intros Hi. unfold buf_store. case_decide; [reflexivity|lia]. Qed.

Lemma TokenIn_type2 (s : MasconState) (buf : list Z) (len : Z) :
  type s = MT_TYPE2 ->
  (6 <= length buf)%nat ->
  let d := data (UpdateHatSwitch s) in
  TokenIn s buf len =
    Some (UpdateHatSwitch s,
          [0x1; dct01_brake (brake d); dct01_power (power d); 0xFF;
           Z.land (hatswitch d) 0x0F; dct01_buttons (buttons d)] ++ drop 6 buf,
          6).
Proof.
  intros Hty Hlen.
  destruct buf as [|x0 [|x1 [|x2 [|x3 [|x4 [|x5 rest]]]]]];
    cbn [length] in Hlen; try lia.
  unfold TokenIn. cbn [UpdateHatSwitch set_data type]. rewrite Hty.
  rewrite !buf_store_lt by (cbn [length]; lia). reflexivity.
Qed.

Lemma TokenIn_shinkansen (s : MasconState) (buf : list Z) (len : Z) :
  type s = MT_SHINKANSEN ->
  (6 <= length buf)%nat ->
  let d := data (UpdateHatSwitch s) in
  TokenIn s buf len =
    Some (UpdateHatSwitch s,
          [dct02_brake (brake d); dct02_power (power d); 0xFF;
           Z.land (hatswitch d) 0x0F; dct02_buttons (buttons d); 0]
            ++ drop 6 buf,
          6).
Proof.
  intros Hty Hlen.
  destruct buf as [|x0 [|x1 [|x2 [|x3 [|x4 [|x5 rest]]]]]];
    cbn [length] in Hlen; try lia.
  unfold TokenIn. cbn [UpdateHatSwitch set_data type]. rewrite Hty.
  rewrite !buf_store_lt by (cbn [length]; lia). reflexivity.
Qed.

Lemma TokenIn_unsupported (s : MasconState) (buf : list Z) (len : Z) :
  type s = MT_RYOJOUHEN \/ type s = MT_COUNT ->
  TokenIn s buf len = Some (UpdateHatSwitch s, buf, USB_RET_IOERROR).
Proof.
  intros Hty. unfold TokenIn. cbn [UpdateHatSwitch set_data type].
  destruct Hty as [-> | ->]; reflexivity.
Qed.

(** C2: a Type 2 state with power 0xFF, brake 0x00, no button and a neutral
    hat serialises, into a buffer with room for the report, as
    [0x01, 0x79, 0x00, 0xFF, 0x08, 0x00] with length 6; the bytes behind the
    report stay as they were. *)
Theorem TokenIn_scenario_A (s : MasconState) (buf : list Z) (len : Z) :
  type s = MT_TYPE2 ->
  power (data s) = 0xFF ->
  brake (data s) = 0x00 ->
  buttons (data s) = 0 ->
  hat_up (data s) = false ->
  hat_down (data s) = false ->
  hat_left (data s) = false ->
  hat_right (data s) = false ->
  (6 <= length buf)%nat ->
  exists s' buf',
    TokenIn s buf len = Some (s', buf', 6) /\
    take 6 buf' = [0x01; 0x79; 0x00; 0xFF; 0x08; 0x00] /\
    drop 6 buf' = drop 6 buf.
Proof.
  intros Hty Hp Hb Hbt Hu Hd Hl Hr Hlen.
  eexists _, _. split; [apply TokenIn_type2; assumption|].
  cbn [UpdateHatSwitch set_data data power brake hatswitch buttons].
  rewrite Hp, Hb, Hbt, Hu, Hd, Hl, Hr. split; reflexivity.
Qed.

(** C4: into a buffer with room for the report, [TokenIn] returns 6 for the
    Type 2 and Shinkansen models; for every other model it returns
    [USB_RET_IOERROR], a negative value whenever that constant is negative. *)
Theorem TokenIn_return (s : MasconState) (buf : list Z) (len : Z) :
  USB_RET_IOERROR < 0 ->
  (6 <= length buf)%nat ->
  exists s' buf' ret,
    TokenIn s buf len = Some (s', buf', ret) /\
    match type s with
    | MT_TYPE2 | MT_SHINKANSEN => ret = 6
    | MT_RYOJOUHEN | MT_COUNT => ret = USB_RET_IOERROR /\ ret < 0
    end.
Proof.
  intros Hneg Hlen.
  destruct (type s) eqn:Hty.
  - eexists _, _, _. split; [apply TokenIn_type2; assumption|reflexivity].
  - eexists _, _, _. split; [apply TokenIn_shinkansen; assumption|reflexivity].
  - eexists _, _, _. split; [apply TokenIn_unsupported; auto|auto].
  - eexists _, _, _. split; [apply TokenIn_unsupported; auto|auto].
Qed.

(** C10: with the Ryojouhen model [TokenIn] returns the error code, leaves
    every byte of the buffer alone, and leaves the state as it was except for
    [hatswitch], which is recomputed from the four flags. *)
Theorem TokenIn_ryojouhen (s : MasconState) (buf : list Z) (len : Z) :
  type s = MT_RYOJOUHEN ->
  exists s',
    TokenIn s buf len = Some (s', buf, USB_RET_IOERROR) /\
    power (data s') = power (data s) /\
    brake (data s') = brake (data s) /\
    hat_up (data s') = hat_up (data s) /\
    hat_down (data s') = hat_down (data s) /\
    hat_left (data s') = hat_left (data s) /\
    hat_right (data s') = hat_right (data s) /\
    buttons (data s') = buttons (data s) /\
    port s' = port s /\ type s' = type s /\ passthrough s' = passthrough s /\
    hatswitch (data s') =
      hat_direction (hat_up (data s)) (hat_down (data s))
        (hat_left (data s)) (hat_right (data s)).
Proof.
  intros Hty. exists (UpdateHatSwitch s).
  split; [apply TokenIn_unsupported; auto|].
  repeat split.
Qed.

(** ** Binding contract *)

Lemma control_of_index_cid (i : Z) (c : MasconControlID) :
  control_of_index i = Some c -> i = cid c.
Proof.
  unfold control_of_index, LENGTH.
  destruct (Z.leb_spec 0 i) as [Hlo|]; [|discriminate].
  destruct (Z.ltb_spec i 12) as [Hhi|]; [|discriminate].
  cbn [andb]. intros Hc.
  assert (Hi : i = Z.of_nat (Z.to_nat i)) by lia.
  assert (Hn : (Z.to_nat i < 12)%nat) by lia.
  revert Hc Hi. generalize (Z.to_nat i) Hn. clear.
  intros n Hn.
  do 12 (destruct n as [|n];
         [cbn; intros [= <-] ->; reflexivity|]).
  lia.
Qed.

Lemma control_of_index_default (i : Z) :
  LENGTH <= i -> control_of_index i = None.
Proof.
  intros Hi. unfold control_of_index.
  destruct (Z.ltb_spec i LENGTH); [lia|]. rewrite andb_false_r. reflexivity.
Qed.

(** C5: [Reset] zeroes [power] and [brake], so both axis bindings read 0.0
    afterwards, and touches nothing else: the hat flags, [hatswitch],
    [buttons] and the device fields are unchanged, and every hat and button
    binding reads what it read before. *)
Theorem Reset_frame (s : MasconState) (i : Z) :
  cid CID_MC_UP <= i <= cid CID_MC_START ->
  GetBindValue (Reset s) (cid CID_MC_POWER) = f32_zero /\
  GetBindValue (Reset s) (cid CID_MC_BRAKE) = f32_zero /\
  power (data (Reset s)) = 0 /\
  brake (data (Reset s)) = 0 /\
  hat_up (data (Reset s)) = hat_up (data s) /\
  hat_down (data (Reset s)) = hat_down (data s) /\
  hat_left (data (Reset s)) = hat_left (data s) /\
  hat_right (data (Reset s)) = hat_right (data s) /\
  hatswitch (data (Reset s)) = hatswitch (data s) /\
  buttons (data (Reset s)) = buttons (data s) /\
  port (Reset s) = port s /\
  type (Reset s) = type s /\
  passthrough (Reset s) = passthrough s /\
  GetBindValue (Reset s) i = GetBindValue s i.
Proof.
  intros Hi. repeat split.
  unfold GetBindValue.
  destruct (control_of_index i) as [c|] eqn:Hc; [|reflexivity].
  apply control_of_index_cid in Hc.
  destruct c; cbn [cid] in Hc, Hi; try lia; reflexivity.
Qed.

(** C9: a binding index past the enumeration reads 0.0 and writing it
    leaves the whole state as it was; both functions are total, so neither
    can fail. *)
Theorem unknown_index_fallback (s : MasconState) (i : Z) (v : spec_float) :
  LENGTH <= i ->
  GetBindValue s i = f32_zero /\ SetBindValue s i v = s.
Proof.
  intros Hi. unfold GetBindValue, SetBindValue.
  rewrite (control_of_index_default i Hi). split; reflexivity.
Qed.

(** ** The hat-switch invariant *)

Lemma SetBindValue_hat_fresh (s : MasconState) (i : Z) (v : spec_float) :
  cid CID_MC_UP <= i <= cid CID_MC_LEFT -> hat_fresh (SetBindValue s i v).
Proof.
  cbn [cid]. intros Hi.
  assert (i = 2 \/ i = 3 \/ i = 4 \/ i = 5) as [-> | [-> | [-> | ->]]] by lia;
    apply UpdateHatSwitch_fresh.
Qed.

Lemma SetBindValue_keeps_fresh (s : MasconState) (i : Z) (v : spec_float) :
  hat_fresh s -> hat_fresh (SetBindValue s i v).
Proof.
  intros Hs. unfold SetBindValue.
  destruct (control_of_index i) as [[]|];
    try apply UpdateHatSwitch_fresh; try exact Hs;
    destruct (f32_ge v f32_half); exact Hs.
Qed.

Lemma UpdateHatSwitch_forgets (s : MasconState) (h : Z) :
  UpdateHatSwitch (set_data s (with_hatswitch (data s) h)) = UpdateHatSwitch s.
Proof. reflexivity. Qed.

(** C8: a write to any of the four hat bindings leaves [hatswitch] equal to
    the encoder's value for the flags as they now are; once that holds, no
    write to any binding and no [Reset] breaks it; and the stored byte is
    never read stale: [TokenIn] and [GetBindValue] give the same results
    whatever [hatswitch] held at the call, the report carries the encoder's
    value of the current flags, and the state [TokenIn] leaves behind
    satisfies the invariant. *)
Theorem hatswitch_never_stale (s : MasconState) (i : Z) (v : spec_float)
    (h : Z) (buf : list Z) (len : Z) :
  cid CID_MC_UP <= i <= cid CID_MC_LEFT ->
  (6 <= length buf)%nat ->
  let fresh :=
    hat_direction (hat_up (data s)) (hat_down (data s))
      (hat_left (data s)) (hat_right (data s)) in
  hat_fresh (SetBindValue s i v) /\
  (forall j w, hat_fresh s -> hat_fresh (SetBindValue s j w)) /\
  (hat_fresh s -> hat_fresh (Reset s)) /\
  TokenIn (set_data s (with_hatswitch (data s) h)) buf len = TokenIn s buf len /\
  (forall j, GetBindValue (set_data s (with_hatswitch (data s) h)) j =
             GetBindValue s j) /\
  exists s' buf' ret,
    TokenIn s buf len = Some (s', buf', ret) /\
    hat_fresh s' /\
    match type s with
    | MT_TYPE2 => buf' !! 4%nat = Some (Z.land fresh 0x0F)
    | MT_SHINKANSEN => buf' !! 3%nat = Some (Z.land fresh 0x0F)
    | MT_RYOJOUHEN | MT_COUNT => buf' = buf
    end.
Proof.
  intros Hi Hlen fresh.
  split; [apply SetBindValue_hat_fresh; exact Hi|].
  split; [intros j w; apply SetBindValue_keeps_fresh|].
  split; [intros Hs; exact Hs|].
  split; [reflexivity|].
  split; [reflexivity|].
  destruct (type s) eqn:Hty.
  - eexists _, _, _. split; [apply TokenIn_type2; assumption|].
    split; [apply UpdateHatSwitch_fresh|reflexivity].
  - eexists _, _, _. split; [apply TokenIn_shinkansen; assumption|].
    split; [apply UpdateHatSwitch_fresh|reflexivity].
  - eexists _, _, _. split; [apply TokenIn_unsupported; auto|].
    split; [apply UpdateHatSwitch_fresh|reflexivity].
  - eexists _, _, _. split; [apply TokenIn_unsupported; auto|].
    split; [apply UpdateHatSwitch_fresh|reflexivity].
Qed.

(** ** Button remapping *)

Lemma Zrange_forallb (P : Z -> bool) (lo : Z) (n : nat) :
  forallb P (Zrange lo n) = true ->
  forall x, lo <= x < lo + Z.of_nat n -> P x = true.
Proof.
  intros Hall x Hx.
  rewrite forallb_forall in Hall. apply Hall.
  unfold Zrange. apply in_map_iff.
  exists (Z.to_nat (x - lo)). split; [lia|].
  apply in_seq. lia.
Qed.

Lemma dct02_buttons_checked (b : Z) :
  0 <= b < 64 -> dct02_buttons_check b = true.
Proof.
  intros Hb. apply (Zrange_forallb dct02_buttons_check 0 64); [|lia].
  vm_compute. reflexivity.
Qed.

(** C7: on the 64 combinations of the six logical buttons both remappers are
    bijections: Type 2 is the identity, and Shinkansen is the permutation of
    bits given by ((A|B)<<2) | (((C<<1)|(D>>1))>>2) | (Start|Select), which
    stays within the 64 combinations, sends distinct combinations to distinct
    wire bytes and reaches each of them. *)
Theorem button_remap_bijective (b b' : Z) :
  0 <= b < 64 ->
  0 <= b' < 64 ->
  dct01_buttons b = b /\
  (dct01_buttons b = dct01_buttons b' -> b = b') /\
  0 <= dct02_buttons b < 64 /\
  (dct02_buttons b = dct02_buttons b' -> b = b') /\
  (exists a, 0 <= a < 64 /\ dct02_buttons a = b) /\
  dct02_buttons b =
    Z.lor
      (Z.lor
         (Z.shiftl (Z.lor (Z.land b 0x02) (Z.land b 0x01)) 2)
         (Z.shiftr
            (Z.lor (Z.shiftl (Z.land b 0x04) 1) (Z.shiftr (Z.land b 0x08) 1))
            2))
      (Z.lor (Z.land b 0x20) (Z.land b 0x10)) /\
  Z.testbit (dct02_buttons b) 0 = Z.testbit b 3 /\
  Z.testbit (dct02_buttons b) 1 = Z.testbit b 2 /\
  Z.testbit (dct02_buttons b) 2 = Z.testbit b 0 /\
  Z.testbit (dct02_buttons b) 3 = Z.testbit b 1 /\
  Z.testbit (dct02_buttons b) 4 = Z.testbit b 4 /\
  Z.testbit (dct02_buttons b) 5 = Z.testbit b 5.
Proof.
  intros Hb Hb'.
  pose proof (dct02_buttons_checked b Hb) as Hc.
  pose proof (dct02_buttons_checked b' Hb') as Hc'.
  unfold dct02_buttons_check in Hc, Hc'.
  rewrite !andb_true_iff, !Z.eqb_eq, !Z.leb_le, !Z.ltb_lt, !eqb_true_iff
    in Hc, Hc'.
  destruct Hc as [[[[[[[[[[[[Hinv Hsec] Hlo] Hhi] Hilo] Hihi] Hf] H0] H1] H2]
    H3] H4] H5].
  destruct Hc' as [[[[[[[[[[[[Hinv' _] _] _] _] _] _] _] _] _] _] _] _].
  split; [reflexivity|].
  split; [intros H; exact H|].
  split; [lia|].
  split; [intros Heq; rewrite <- Hinv, <- Hinv', Heq; reflexivity|].
  split; [exists (dct02_buttons_inv b); split; [lia|exact Hsec]|].
  repeat split; assumption.
Qed.

(** ** binary32 rounding *)

Lemma shr_1_inv (M w : Z) (mrs : shr_record) :
  0 < w -> shr_inv M w mrs -> shr_inv M (2 * w) (shr_1 mrs).
Proof.
  intros Hw. destruct mrs as [q r s]. unfold shr_inv.
  cbn [shr_m shr_r shr_s]. intros (Hq & Hrem & Hr & Hs).
  destruct q as [|[p|p|]|p]; cbn [shr_1 shr_m shr_r shr_s]; lia.
Qed.

Lemma iter_shr_1_inv (M : Z) (p : positive) :
  forall (w : Z) (mrs : shr_record),
    0 < w -> shr_inv M w mrs ->
    shr_inv M (w * 2 ^ Z.pos p) (SpecFloat.iter_pos shr_1 p mrs).
Proof.
  induction p as [p IH|p IH|]; intros w mrs Hw Hinv; cbn [SpecFloat.iter_pos].
  - replace (w * 2 ^ Z.pos p~1) with (2 * w * 2 ^ Z.pos p * 2 ^ Z.pos p).
    + apply IH; [lia|]. apply IH; [lia|]. apply shr_1_inv; assumption.
    + replace (Z.pos p~1) with (1 + Z.pos p + Z.pos p) by lia.
      rewrite !Z.pow_add_r by lia. lia.
  - replace (w * 2 ^ Z.pos p~0) with (w * 2 ^ Z.pos p * 2 ^ Z.pos p).
    + apply IH; [lia|]. apply IH; assumption.
    + replace (Z.pos p~0) with (Z.pos p + Z.pos p) by lia.
      rewrite !Z.pow_add_r by lia. lia.
  - replace (w * 2 ^ 1) with (2 * w) by lia. apply shr_1_inv; assumption.
Qed.

Lemma shr_inv_start (M : Z) :
  0 <= M -> shr_inv M 1 (shr_record_of_loc M loc_Exact).
Proof. intros HM. unfold shr_inv. cbn [shr_record_of_loc shr_m shr_r shr_s]. lia. Qed.

(** One normalising shift of an exactly known mantissa: the exponent moves up
    to [fexp] of the magnitude when that is above it, and the record holds
    the quotient and where the remainder lies. *)
Lemma shr_fexp_inv (M e : Z) :
  0 <= M ->
  exists mrs e',
    shr_fexp f32_prec f32_emax M e loc_Exact = (mrs, e') /\
    e' = Z.max e (fexp f32_prec f32_emax (Zdigits2 M + e)) /\
    shr_inv M (2 ^ (e' - e)) mrs.
Proof.
  intros HM. unfold shr_fexp, shr.
  destruct (fexp f32_prec f32_emax (Zdigits2 M + e) - e) as [|p|p] eqn:Hn.
  - eexists _, _. split; [reflexivity|]. split; [lia|].
    replace (e - e) with 0 by lia. apply shr_inv_start; assumption.
  - eexists _, _. split; [reflexivity|]. split; [lia|].
    replace (e + Z.pos p - e) with (Z.pos p) by lia.
    replace (2 ^ Z.pos p) with (1 * 2 ^ Z.pos p) by lia.
    apply iter_shr_1_inv; [lia|]. apply shr_inv_start; assumption.
  - eexists _, _. split; [reflexivity|]. split; [lia|].
    replace (e - e) with 0 by lia. apply shr_inv_start; assumption.
Qed.

(** Rounding the shifted mantissa to nearest (ties to even) lands within
    half a unit of the exact value. *)
Lemma round_nearest_even_inv (M w : Z) (mrs : shr_record) :
  0 < w ->
  shr_inv M w mrs ->
  let m2 := round_nearest_even (shr_m mrs) (loc_of_shr_record mrs) in
  0 <= m2 /\ 2 * Z.abs (m2 * w - M) <= w.
Proof.
  intros Hw. destruct mrs as [q r s]. unfold shr_inv.
  cbn [shr_m shr_r shr_s]. intros (Hq & Hrem & Hr & Hs).
  destruct r, s; cbn [loc_of_shr_record round_nearest_even shr_m];
    try destruct (Z.even q); lia.
Qed.

Lemma digits2_pos_bounds (p : positive) :
  2 ^ (Z.pos (digits2_pos p) - 1) <= Z.pos p < 2 ^ Z.pos (digits2_pos p).
Proof.
  induction p as [p IH|p IH|]; cbn [digits2_pos].
  - rewrite Pos2Z.inj_succ.
    replace (Z.succ (Z.pos (digits2_pos p)) - 1)
      with (1 + (Z.pos (digits2_pos p) - 1)) by lia.
    replace (Z.succ (Z.pos (digits2_pos p)))
      with (1 + Z.pos (digits2_pos p)) by lia.
    rewrite !Z.pow_add_r by lia. lia.
  - rewrite Pos2Z.inj_succ.
    replace (Z.succ (Z.pos (digits2_pos p)) - 1)
      with (1 + (Z.pos (digits2_pos p) - 1)) by lia.
    replace (Z.succ (Z.pos (digits2_pos p)))
      with (1 + Z.pos (digits2_pos p)) by lia.
    rewrite !Z.pow_add_r by lia. lia.
  - cbn. lia.
Qed.

Lemma Zdigits2_le (M a : Z) :
  0 <= a -> 0 <= M < 2 ^ a -> Zdigits2 M <= a.
Proof.
  intros Ha [HM Hlt]. destruct M as [|p|p]; cbn [Zdigits2]; [lia| |lia].
  pose proof (digits2_pos_bounds p) as [Hlo _].
  assert (Hpow : 2 ^ (Z.pos (digits2_pos p) - 1) < 2 ^ a) by lia.
  apply Z.pow_lt_mono_r_iff in Hpow; lia.
Qed.

(** [binary_round_aux] on an exactly known non-negative mantissa: a first
    shift to exponent [e1] rounds [M] to [m2] within half a unit, and a
    second one to [e3] truncates [m2] to [m3] by less than a unit. *)
Lemma binary_round_aux_exact (M ex : Z) :
  0 <= M ->
  exists e1 e3 m2 m3,
    e1 = Z.max ex (fexp f32_prec f32_emax (Zdigits2 M + ex)) /\
    e3 = Z.max e1 (fexp f32_prec f32_emax (Zdigits2 m2 + e1)) /\
    0 <= m2 /\ 2 * Z.abs (m2 * 2 ^ (e1 - ex) - M) <= 2 ^ (e1 - ex) /\
    0 <= m3 /\ 0 <= m2 - m3 * 2 ^ (e3 - e1) < 2 ^ (e3 - e1) /\
    binary_round_aux f32_prec f32_emax false M ex loc_Exact =
      match m3 with
      | Z0 => S754_zero false
      | Z.pos m =>
          if e3 <=? f32_emax - f32_prec
          then S754_finite false m e3 else S754_infinity false
      | Z.neg _ => S754_nan
      end.
Proof.
  intros HM. unfold binary_round_aux.
  destruct (shr_fexp_inv M ex HM) as (mrs1 & e1 & Heq1 & He1 & Hinv1).
  rewrite Heq1.
  assert (Hw1 : 0 < 2 ^ (e1 - ex)) by (apply Z.pow_pos_nonneg; lia).
  destruct (round_nearest_even_inv M _ mrs1 Hw1 Hinv1) as [Hm2 Hclose].
  set (m2 := round_nearest_even (shr_m mrs1) (loc_of_shr_record mrs1)) in *.
  destruct (shr_fexp_inv m2 e1 Hm2) as (mrs2 & e3 & Heq2 & He3 & Hinv2).
  rewrite Heq2.
  exists e1, e3, m2, (shr_m mrs2).
  destruct Hinv2 as (Hm3 & Hrem & _).
  repeat split; try assumption; lia.
Qed.

Lemma f32_255_eq : f32_255 = S754_finite false 16711680 (-16).
Proof. reflexivity. Qed.

(** Rounding a positive float below the integers' unit to the nearest
    integer, halfway cases upward. *)
Lemma round_half_away_bounds (m r : positive) :
  let n := round_half_away false m (Z.neg r) in
  let F := 2 ^ Z.pos r in
  0 <= n /\ 2 * (n * F) <= 2 * Z.pos m + F < 2 * (n * F) + 2 * F.
Proof.
  cbn zeta. unfold round_half_away.
  assert (HF : 2 ^ Z.pos r = 2 * 2 ^ (Z.pos r - 1)).
  { replace (Z.pos r) with (1 + (Z.pos r - 1)) at 1 by lia.
    rewrite Z.pow_add_r by lia. lia. }
  assert (HH : 0 < 2 ^ (Z.pos r - 1)) by (apply Z.pow_pos_nonneg; lia).
  set (H := 2 ^ (Z.pos r - 1)) in *.
  set (F := 2 ^ Z.pos r) in *.
  pose proof (Z.mul_div_le (Z.pos m + H) F ltac:(lia)) as Hlo.
  pose proof (Z.mul_succ_div_gt (Z.pos m + H) F ltac:(lia)) as Hhi.
  assert (0 <= (Z.pos m + H) / F) by (apply Z.div_pos; lia).
  lia.
Qed.

(** The integer [lroundf (v * 255.0f)] for a positive [v = m * 2^-q] not
    above 1: it misses the exact product by less than three quarters. *)
Lemma lroundf_mul_255 (m q : positive) :
  Z.pos m <= 2 ^ Z.pos q ->
  let n0 := lroundf (f32_mul (S754_finite false m (Z.neg q)) f32_255) in
  0 <= n0 /\
  4 * Z.abs (n0 * 2 ^ Z.pos q - 255 * Z.pos m) <= 3 * 2 ^ Z.pos q.
Proof.
  intros Hm. cbn zeta.
  rewrite f32_255_eq. unfold f32_mul, SFmul. cbn [xorb].
  assert (HE : 0 < 2 ^ Z.pos q) by (apply Z.pow_pos_nonneg; lia).
  set (E := 2 ^ Z.pos q) in *.
  set (ex := Z.neg q + -16).
  assert (HM : Z.pos (m * 16711680) = 255 * 65536 * Z.pos m) by lia.
  destruct (binary_round_aux_exact (Z.pos (m * 16711680)) ex)
    as (e1 & e3 & m2 & m3 & He1 & He3 & Hm2 & Hc1 & Hm3 & Hc2 & Heq); [lia|].
  rewrite Heq. clear Heq. rewrite HM in *.
  set (M := 255 * 65536 * Z.pos m) in *.
  assert (HD : 2 ^ (- ex) = 65536 * E).
  { unfold ex, E. replace (- (Z.neg q + -16)) with (16 + Z.pos q) by lia.
    rewrite Z.pow_add_r by lia. reflexivity. }
  set (D := 2 ^ (- ex)) in *.
  (* the first shift stops at or below 2^-16 *)
  assert (Hd1 : Zdigits2 M <= 8 - ex).
  { apply Zdigits2_le; [lia|]. split; [lia|].
    replace (8 - ex) with (8 + - ex) by lia.
    rewrite Z.pow_add_r by lia. fold D. lia. }
  assert (Hr1 : ex <= e1 <= -16).
  { unfold fexp, emin, f32_prec, f32_emax in He1. lia. }
  assert (Hw : 0 < 2 ^ (e1 - ex)) by (apply Z.pow_pos_nonneg; lia).
  assert (HwD : 2 ^ (-16 - e1) * 2 ^ (e1 - ex) * 65536 = D).
  { rewrite <- Z.pow_add_r by lia. unfold D.
    replace (- ex) with ((-16 - e1 + (e1 - ex)) + 16) by lia.
    rewrite (Z.pow_add_r 2 (-16 - e1 + (e1 - ex)) 16) by lia. reflexivity. }
  assert (Ha : 0 < 2 ^ (-16 - e1)) by (apply Z.pow_pos_nonneg; lia).
  set (w := 2 ^ (e1 - ex)) in *.
  assert (HwD' : 65536 * w <= D) by nia.
  (* so does the second *)
  assert (Hd2 : Zdigits2 m2 <= 9 - e1).
  { apply Zdigits2_le; [lia|]. split; [lia|].
    assert (Hp : 2 ^ (9 - e1) * w = 512 * D).
    { unfold w, D. rewrite <- Z.pow_add_r by lia.
      replace (9 - e1 + (e1 - ex)) with (9 + - ex) by lia.
      rewrite Z.pow_add_r by lia. reflexivity. }
    apply (Z.mul_lt_mono_pos_r w); lia. }
  assert (Hr3 : e1 <= e3 <= -15).
  { unfold fexp, emin, f32_prec, f32_emax in He3. lia. }
  assert (Hw2 : 0 < 2 ^ (e3 - e1)) by (apply Z.pow_pos_nonneg; lia).
  assert (HF : 0 < 2 ^ (- e3)) by (apply Z.pow_pos_nonneg; lia).
  assert (HF15 : 32768 <= 2 ^ (- e3)).
  { replace (- e3) with (15 + (-15 - e3)) by lia.
    rewrite Z.pow_add_r by lia.
    assert (0 < 2 ^ (-15 - e3)) by (apply Z.pow_pos_nonneg; lia). lia. }
  assert (HFD : 2 ^ (- e3) * (2 ^ (e3 - e1) * w) = D).
  { unfold w, D. rewrite <- !Z.pow_add_r by lia. f_equal. lia. }
  set (w2 := 2 ^ (e3 - e1)) in *.
  set (F := 2 ^ (- e3)) in *.
  set (W := w2 * w) in *.
  assert (HW : w <= W) by (unfold W; nia).
  assert (HWD : 32768 * W <= D) by nia.
  assert (Hc2' : 0 <= m2 * w - m3 * W < W) by (unfold W; nia).
  (* the rounded integer *)
  assert (Hn : exists n0,
             lroundf
               match m3 with
               | 0 => S754_zero false
               | Z.pos m0 =>
                   if e3 <=? f32_emax - f32_prec
                   then S754_finite false m0 e3 else S754_infinity false
               | Z.neg _ => S754_nan
               end = n0 /\
             0 <= n0 /\
             2 * (n0 * F) <= 2 * m3 + F < 2 * (n0 * F) + 2 * F).
  { destruct m3 as [|m0|m0]; [| |lia].
    - exists 0. cbn [lroundf]. lia.
    - destruct (Z.leb_spec e3 (f32_emax - f32_prec)) as [_|Hbad];
        [|unfold f32_emax, f32_prec in Hbad; lia].
      destruct e3 as [|r|r]; try lia.
      pose proof (round_half_away_bounds m0 r) as Hb. cbn zeta in Hb.
      change (- Z.neg r) with (Z.pos r) in *. fold F in Hb.
      exists (round_half_away false m0 (Z.neg r)).
      split; [|exact Hb].
      cbn [lroundf].
      set (n0 := round_half_away false m0 (Z.neg r)) in *.
      assert (Hsmall : n0 <= 257).
      { assert (Z.pos m0 * W <= m2 * w) by lia.
        assert (n0 * (F * W) <= 257 * (F * W)); [|nia].
        assert (2 * (n0 * F) * W <= (2 * Z.pos m0 + F) * W) by nia.
        nia. }
      unfold LONG_MIN, LONG_MAX.
      destruct (Z.leb_spec (- 2 ^ 63) n0); [|lia].
      destruct (Z.leb_spec n0 (2 ^ 63 - 1)); [reflexivity|lia]. }
  destruct Hn as (n0 & -> & Hn0 & Hb).
  split; [exact Hn0|].
  assert (Hb' : 2 * (n0 * D) <= 2 * (m3 * W) + D < 2 * (n0 * D) + 2 * D).
  { rewrite <- HFD. fold W. nia. }
  assert (Hfin : 4 * Z.abs (n0 * D - M) <= 3 * D) by lia.
  rewrite HD in Hfin. unfold M in Hfin. lia.
Qed.

(** ** Axis round trip *)

Lemma clamp_range (v : Z) : 0 <= clamp v 0 255 <= 255.
Proof.
  unfold clamp.
  destruct (Z.ltb_spec v 0); [lia|]. destruct (Z.ltb_spec 255 v); lia.
Qed.

Lemma u8_of_small (n : Z) :
  0 <= n <= 255 -> Z.land (Z.land n 0xFFFFFFFF) 0xFF = n.
Proof.
  intros Hn.
  change 0xFFFFFFFF with (Z.ones 32). change 0xFF with (Z.ones 8).
  rewrite !Z.land_ones by lia.
  rewrite (Z.mod_small n (2 ^ 32)) by lia. apply Z.mod_small. lia.
Qed.

Lemma axis_input_range (v : spec_float) : 0 <= axis_input v <= 255.
Proof.
  unfold axis_input, scaled_input.
  rewrite u8_of_small; apply clamp_range.
Qed.

Lemma axis_input_close (m q : positive) :
  Z.pos m <= 2 ^ Z.pos q ->
  let n := axis_input (S754_finite false m (Z.neg q)) in
  4 * Z.abs (n * 2 ^ Z.pos q - 255 * Z.pos m) <= 3 * 2 ^ Z.pos q.
Proof.
  intros Hm. cbn zeta. unfold axis_input, scaled_input.
  rewrite u8_of_small by apply clamp_range.
  destruct (lroundf_mul_255 m q Hm) as [Hn0 Hclose].
  set (n0 := lroundf (f32_mul (S754_finite false m (Z.neg q)) f32_255)) in *.
  unfold clamp.
  destruct (Z.ltb_spec n0 0); [lia|].
  destruct (Z.ltb_spec 255 n0) as [Hbig|]; [|exact Hclose].
  assert (0 < 2 ^ Z.pos q) by (apply Z.pow_pos_nonneg; lia).
  nia.
Qed.

Lemma axis_readback (raw : Z) :
  0 <= raw <= 255 ->
  (Qabs (255 * B2Q (f32_div (f32_of_Z raw) f32_255) - inject_Z raw) <= 1 # 4)%Q.
Proof.
  intros Hraw. apply Qle_bool_iff.
  apply (Zrange_forallb axis_readback_check 0 256); [|lia].
  vm_compute. reflexivity.
Qed.

Lemma Q_of_dyadic_close (m E : positive) (n : Z) :
  4 * Z.abs (n * Z.pos E - 255 * Z.pos m) <= 3 * Z.pos E ->
  (Qabs (255 * (Z.pos m # E) - inject_Z n) <= 3 # 4)%Q.
Proof.
  intros H. apply Qabs_Qle_condition.
  unfold Qle, Qminus, Qplus, Qmult, Qopp, inject_Z. cbn [Qnum Qden].
  lia.
Qed.

Lemma Q_round_trip (x v n : Q) :
  (Qabs (255 * x - n) <= 1 # 4)%Q ->
  (Qabs (255 * v - n) <= 3 # 4)%Q ->
  (Qabs (x - v) <= 1 # 255)%Q.
Proof.
  rewrite !Qabs_Qle_condition. intros [H1 H2] [H3 H4]. split; lra.
Qed.

(** A valid binary32 number with a non-negative exponent is at least 2^23. *)
Lemma f32_valid_exponent (m : positive) (e : Z) :
  f32_valid (S754_finite false m e) = true ->
  0 <= e -> 2 ^ 23 <= Z.pos m.
Proof.
  unfold f32_valid, valid_binary, bounded, canonical_mantissa.
  intros Hv He. apply andb_true_iff in Hv as [Hc _].
  apply Z.eqb_eq in Hc.
  unfold fexp, emin, f32_prec, f32_emax in Hc.
  assert (Hd : Z.pos (digits2_pos m) = 24) by lia.
  pose proof (digits2_pos_bounds m) as [Hlo _].
  rewrite Hd in Hlo. exact Hlo.
Qed.

Lemma axis_round_trip_value (v : spec_float) :
  f32_valid v = true ->
  f32_finite v = true ->
  (0 <= B2Q v)%Q ->
  (B2Q v <= 1)%Q ->
  (Qabs (B2Q (f32_div (f32_of_Z (axis_input v)) f32_255) - B2Q v)
     <= 1 # 255)%Q.
Proof.
  intros Hvalid Hfin Hlo Hhi.
  apply (Q_round_trip _ _ (inject_Z (axis_input v)));
    [apply axis_readback, axis_input_range|].
  destruct v as [s|s| |s m e]; try discriminate Hfin.
  - destruct s; vm_compute; discriminate.
  - destruct s.
    { exfalso. revert Hlo. unfold B2Q, Qle, inject_Z.
      destruct e; cbn [Qnum Qden]; lia. }
    destruct e as [|p|q].
    + exfalso. pose proof (f32_valid_exponent m 0 Hvalid ltac:(lia)).
      revert Hhi. unfold B2Q, Qle, inject_Z. cbn [Qnum Qden]. lia.
    + exfalso. pose proof (f32_valid_exponent m (Z.pos p) Hvalid ltac:(lia)).
      assert (0 < 2 ^ Z.pos p) by (apply Z.pow_pos_nonneg; lia).
      revert Hhi. unfold B2Q, Qle, inject_Z. cbn [Qnum Qden]. nia.
    + cbn [B2Q]. apply Q_of_dyadic_close.
      rewrite Pos2Z.inj_pow. apply axis_input_close.
      revert Hhi. unfold B2Q, Qle. cbn [Qnum Qden].
      rewrite Pos2Z.inj_pow. lia.
Qed.

(** C6: writing a binary32 value of [0, 1] to the power or the brake binding
    and reading that binding back gives a value within 1/255 of it. *)
Theorem axis_round_trip (s : MasconState) (i : Z) (v : spec_float) :
  i = cid CID_MC_POWER \/ i = cid CID_MC_BRAKE ->
  f32_valid v = true ->
  f32_finite v = true ->
  (0 <= B2Q v)%Q ->
  (B2Q v <= 1)%Q ->
  (Qabs (B2Q (GetBindValue (SetBindValue s i v) i) - B2Q v) <= 1 # 255)%Q.
Proof.
  intros [-> | ->] Hvalid Hfin Hlo Hhi;
    exact (axis_round_trip_value v Hvalid Hfin Hlo Hhi).
Qed.

(** * Further properties *)

(** ** Notch tables: every result is a listed notch *)

Lemma notch_scan_first_match (notches : list (Z * Z)) (d value : Z) :
  Exists (fun x => x.1 <= value) notches ->
  In (notch_scan notches d value) (map snd notches) /\
  forall d', notch_scan notches d' value = notch_scan notches d value.
Proof.
  induction notches as [|a rest IH]; intros Hex; [inversion Hex|].
  cbn [notch_scan map]. rewrite Z.geb_leb.
  destruct (Z.leb_spec a.1 value) as [Ha|Ha].
  - split; [left; reflexivity|]. reflexivity.
  - apply Exists_cons in Hex as [Hex|Hex]; [lia|].
    destruct (IH Hex) as [Hin Hd]. split; [right; exact Hin|].
    exact Hd.
Qed.

Lemma notch_reached_intro (notches : list (Z * Z)) (value : Z) :
  Exists (fun x => x.1 <= value) notches ->
  Forall (fun row => notch_lookup notches row.1 = row.2) notches ->
  notch_reached (notch_lookup notches) notches value.
Proof.
  intros Hex Hrows. unfold notch_reached, notch_lookup in *.
  destruct (notch_scan_first_match notches (List.last notches (0, 0)).2
              value Hex) as [Hin Hd].
  split; [exact Hin|]. split; [exact Hd|exact Hrows].
Qed.

Ltac notch_table_reached :=
  apply notch_reached_intro;
  [ repeat first [ apply Exists_cons_hd; cbn [fst]; lia | apply Exists_cons_tl ]
  | repeat first [ apply Forall_nil_2 | apply Forall_cons_2; [reflexivity|] ] ].

(** X1: for every input byte each of the four notch functions returns one
    of the outputs listed in its table, the loop always returns before the
    fall-through statement, and each row's threshold maps to that row's
    output, so every notch is reached. *)
Theorem notch_outputs_reached (value : Z) :
  0 <= value ->
  notch_reached dct01_power dct01_power_notches value /\
  notch_reached dct01_brake dct01_brake_notches value /\
  notch_reached dct02_power dct02_power_notches value /\
  notch_reached dct02_brake dct02_brake_notches value.
Proof.
  intros Hv. split; [|split; [|split]]; notch_table_reached.
Qed.

(** ** The report: bounds, framing, repetition *)

Lemma TokenIn_short (s : MasconState) (buf : list Z) (len : Z) :
  supported (type s) = true ->
  (length buf < 6)%nat ->
  TokenIn s buf len = None.
Proof.
  intros Hty Hlen. unfold TokenIn. cbn [UpdateHatSwitch set_data type data].
  destruct (type s); try discriminate Hty;
    destruct buf as [|x0 [|x1 [|x2 [|x3 [|x4 [|x5 rest]]]]]];
    cbn [length] in Hlen; try lia; reflexivity.
Qed.

Lemma TokenIn_supported (s : MasconState) (buf : list Z) (len : Z) :
  supported (type s) = true ->
  (6 <= length buf)%nat ->
  exists r,
    length r = 6%nat /\
    TokenIn s buf len = Some (UpdateHatSwitch s, r ++ drop 6 buf, 6) /\
    forall buf2 len2,
      (6 <= length buf2)%nat ->
      TokenIn s buf2 len2 = Some (UpdateHatSwitch s, r ++ drop 6 buf2, 6).
Proof.
  intros Hty Hlen. destruct (type s) eqn:Ht; try discriminate Hty.
  - eexists. split; [|split; [apply TokenIn_type2; assumption|]].
    + reflexivity.
    + intros buf2 len2 H2. apply TokenIn_type2; assumption.
  - eexists. split; [|split; [apply TokenIn_shinkansen; assumption|]].
    + reflexivity.
    + intros buf2 len2 H2. apply TokenIn_shinkansen; assumption.
Qed.

(** The state a defined [TokenIn] leaves is the state with [hatswitch]
    recomputed. *)
Lemma TokenIn_state (s s' : MasconState) (buf buf' : list Z) (len ret : Z) :
  TokenIn s buf len = Some (s', buf', ret) -> s' = UpdateHatSwitch s.
Proof.
  intros Heq. destruct (supported (type s)) eqn:Hty.
  - destruct (le_lt_dec 6 (length buf)) as [Hge|Hlt].
    + destruct (TokenIn_supported s buf len Hty Hge) as (r & _ & Heq1 & _).
      rewrite Heq1 in Heq. injection Heq as <- _ _. reflexivity.
    + rewrite TokenIn_short in Heq by assumption. discriminate Heq.
  - rewrite TokenIn_unsupported in Heq
      by (destruct (type s); try discriminate Hty; auto).
    injection Heq as <- _ _. reflexivity.
Qed.

(** X2: [TokenIn] never looks at [len]: for the two supported models it
    stores six bytes whatever the buffer holds, so the call is undefined
    exactly when the buffer is shorter than six bytes; for the other models
    it is defined on every buffer, the empty one included. *)
Theorem TokenIn_overrun (s : MasconState) (buf : list Z) (len : Z) :
  TokenIn s buf len = None <->
  supported (type s) = true /\ (length buf < 6)%nat.
Proof.
  split.
  - intros Hnone. destruct (supported (type s)) eqn:Hty.
    + split; [reflexivity|].
      destruct (le_lt_dec 6 (length buf)) as [Hge|Hlt]; [|exact Hlt].
      destruct (TokenIn_supported s buf len Hty Hge) as (r & _ & Heq & _).
      rewrite Heq in Hnone. discriminate Hnone.
    + rewrite TokenIn_unsupported in Hnone; [discriminate Hnone|].
      destruct (type s); try discriminate Hty; auto.
  - intros [Hty Hlen]. apply TokenIn_short; assumption.
Qed.

(** X3: on a supported model [TokenIn] replaces exactly the first six bytes
    of the buffer and keeps the rest; what it writes depends on the state
    alone, not on the old contents of the buffer nor on [len]. *)
Theorem TokenIn_frame (s : MasconState) (buf buf2 : list Z) (len len2 : Z) :
  supported (type s) = true ->
  (6 <= length buf)%nat ->
  (6 <= length buf2)%nat ->
  exists s' r,
    length r = 6%nat /\
    TokenIn s buf len = Some (s', r ++ drop 6 buf, 6) /\
    TokenIn s buf2 len2 = Some (s', r ++ drop 6 buf2, 6).
Proof.
  intros Hty Hlen Hlen2.
  destruct (TokenIn_supported s buf len Hty Hlen) as (r & Hr & Heq & Hall).
  exists (UpdateHatSwitch s), r. split; [exact Hr|].
  split; [exact Heq|]. apply Hall. exact Hlen2.
Qed.

(** X4: a second [TokenIn] right after a first one changes nothing: the
    state the first call leaves is the state with [hatswitch] recomputed, and
    polling again from it returns the same state, buffer and length. *)
Theorem TokenIn_repeat (s s' : MasconState) (buf buf' : list Z)
    (len len' ret : Z) :
  TokenIn s buf len = Some (s', buf', ret) ->
  s' = UpdateHatSwitch s /\
  TokenIn s' buf' len' = Some (s', buf', ret).
Proof.
  intros Heq. destruct (supported (type s)) eqn:Hty.
  - destruct (le_lt_dec 6 (length buf)) as [Hge|Hlt].
    + destruct (TokenIn_supported s buf len Hty Hge) as (r & Hr & Heq1 & Hall).
      rewrite Heq1 in Heq. injection Heq as <- <- <-.
      split; [reflexivity|].
      assert (Hlen' : (6 <= length (r ++ drop 6 buf))%nat).
      { rewrite length_app. lia. }
      change (TokenIn (UpdateHatSwitch s) (r ++ drop 6 buf) len')
        with (TokenIn s (r ++ drop 6 buf) len').
      rewrite (Hall (r ++ drop 6 buf) len' Hlen').
      rewrite drop_app_length' by (symmetry; exact Hr). reflexivity.
    + rewrite TokenIn_short in Heq by assumption. discriminate Heq.
  - assert (Hun : type s = MT_RYOJOUHEN \/ type s = MT_COUNT).
    { destruct (type s); try discriminate Hty; auto. }
    rewrite TokenIn_unsupported in Heq by exact Hun.
    injection Heq as <- <- <-. split; [reflexivity|].
    change (TokenIn (UpdateHatSwitch s) buf len') with (TokenIn s buf len').
    apply TokenIn_unsupported. exact Hun.
Qed.

(** ** Field widths are respected *)

Lemma dct_is_byte (value : Z) :
  0 <= value ->
  is_byte (dct01_power value) /\ is_byte (dct01_brake value) /\
  is_byte (dct02_power value) /\ is_byte (dct02_brake value).
Proof.
  intros Hv. unfold is_byte.
  repeat split;
    match goal with
    | |- context [?f value] =>
        let H := fresh in
        assert (H : notch_reached f _ value) by notch_table_reached;
        destruct H as [H _]; revert H; generalize (f value)
    end;
    cbn; intros; lia.
Qed.

Lemma hat_nibble (up down left right : bool) :
  Z.land (hat_direction up down left right) 0x0F =
    hat_direction up down left right.
Proof. destruct up, down, left, right; reflexivity. Qed.

Lemma dct02_buttons_is_byte (b : Z) : is_byte (dct02_buttons b).
Proof.
  unfold dct02_buttons. change 0xFF with (Z.ones 8).
  rewrite Z.land_ones by lia. unfold is_byte.
  pose proof (Z.mod_pos_bound
                (Z.lor (Z.lor (Z.shiftl (get_ab b) 2) (Z.shiftr (swap_cd b) 2))
                   (get_ss b)) (2 ^ 8) ltac:(lia)).
  lia.
Qed.

Lemma button_write_checked (b : Z) :
  0 <= b < 256 -> button_write_check b = true.
Proof.
  intros Hb. apply (Zrange_forallb button_write_check 0 256); [|lia].
  vm_compute. reflexivity.
Qed.

(** The facts [button_write_check] establishes, at one button index. *)
Lemma button_write_facts (b i : Z) :
  0 <= b < 256 ->
  In i button_indices ->
  let m := button_mask i in
  let on := Z.land (Z.lor b m) 0xFF in
  let off := Z.land (Z.land b (Z.lxor m 0xFFFFFFFF)) 0xFF in
  button_at on i <> 0 /\ button_at off i = 0 /\
  (button_at b i = 0 -> off = b) /\ (button_at b i <> 0 -> on = b) /\
  (b < 64 -> on < 64 /\ off < 64) /\
  (Z.land (Z.lor on m) 0xFF = on /\ Z.land (Z.lor off m) 0xFF = on /\
   Z.land (Z.land on (Z.lxor m 0xFFFFFFFF)) 0xFF = off /\
   Z.land (Z.land off (Z.lxor m 0xFFFFFFFF)) 0xFF = off) /\
  forall j, In j button_indices -> j <> i ->
            button_at on j = button_at b j /\ button_at off j = button_at b j.
Proof.
  intros Hb Hi m on off.
  pose proof (button_write_checked b Hb) as Hc.
  unfold button_write_check in Hc. rewrite forallb_forall in Hc.
  specialize (Hc i Hi). fold m on off in Hc.
  rewrite !andb_true_iff in Hc.
  destruct Hc as [[[[[[[[Hon Hoff] Hid] H11] H01] H10] H00] Hlt] Hothers].
  rewrite forallb_forall in Hothers.
  repeat split.
  - intros H0. rewrite H0 in Hon. discriminate Hon.
  - apply Z.eqb_eq. exact Hoff.
  - intros H0. rewrite H0 in Hid. apply Z.eqb_eq. exact Hid.
  - intros H0. apply Z.eqb_neq in H0. rewrite H0 in Hid.
    apply Z.eqb_eq. exact Hid.
  - lia.
  - lia.
  - lia.
  - lia.
  - lia.
  - lia.
  - specialize (Hothers j H). lia.
  - specialize (Hothers j H). lia.
Qed.

Lemma button_index_of (i : Z) (c : MasconControlID) :
  control_of_index i = Some c ->
  match c with
  | CID_MC_A | CID_MC_B | CID_MC_C | CID_MC_D | CID_MC_SELECT
  | CID_MC_START => In i button_indices
  | _ => True
  end.
Proof.
  intros Hc. apply control_of_index_cid in Hc. subst i.
  destruct c; cbn; auto 10.
Qed.

Lemma UpdateHatSwitch_ok (s : MasconState) :
  0 <= power (data s) <= 255 -> 0 <= brake (data s) <= 255 ->
  0 <= buttons (data s) < 64 ->
  state_ok (UpdateHatSwitch s).
Proof.
  intros Hp Hb Hbt. unfold state_ok.
  cbn [UpdateHatSwitch set_data data power brake hatswitch buttons].
  pose proof (hat_direction_range (hat_up (data s)) (hat_down (data s))
                (hat_left (data s)) (hat_right (data s))).
  lia.
Qed.

Lemma SetBindValue_ok (s : MasconState) (i : Z) (v : spec_float) :
  state_ok s -> state_ok (SetBindValue s i v).
Proof.
  intros (Hp & Hb & Hh & Hbt). unfold SetBindValue.
  destruct (control_of_index i) as [c|] eqn:Hc;
    [|unfold state_ok; auto].
  pose proof (button_index_of i c Hc) as Hin.
  pose proof (axis_input_range v) as Hax.
  destruct c; try (apply UpdateHatSwitch_ok; assumption);
    try (unfold state_ok;
         cbn [set_data data with_power with_brake power brake hatswitch
                buttons]; lia);
    destruct (button_write_facts (buttons (data s)) i ltac:(lia) Hin)
      as (_ & _ & _ & _ & Hlt & _ & _);
    specialize (Hlt ltac:(lia));
    pose proof (Z.land_nonneg (Z.lor (buttons (data s)) (button_mask i)) 0xFF);
    pose proof (Z.land_nonneg
                  (Z.land (buttons (data s))
                     (Z.lxor (button_mask i) 0xFFFFFFFF)) 0xFF);
    destruct (f32_ge v f32_half); unfold state_ok;
    cbn [set_data data with_buttons power brake hatswitch buttons]; lia.
Qed.

(** The report of a state within its widths, byte by byte. *)
Lemma TokenIn_bytes (s : MasconState) (buf : list Z) (len : Z) :
  state_ok s ->
  supported (type s) = true ->
  (6 <= length buf)%nat ->
  exists s' r,
    TokenIn s buf len = Some (s', r ++ drop 6 buf, 6) /\
    length r = 6%nat /\ Forall is_byte r /\ state_ok s'.
Proof.
  intros (Hp & Hb & Hh & Hbt) Hty Hlen.
  destruct (dct_is_byte (power (data s)) ltac:(lia)) as (P1 & _ & P2 & _).
  destruct (dct_is_byte (brake (data s)) ltac:(lia)) as (_ & B1 & _ & B2).
  pose proof (hat_direction_range (hat_up (data s)) (hat_down (data s))
                (hat_left (data s)) (hat_right (data s))) as Hhat.
  pose proof (dct02_buttons_is_byte (buttons (data s))) as Hbb.
  assert (Hok : state_ok (UpdateHatSwitch s))
    by (apply UpdateHatSwitch_ok; lia).
  destruct (type s) eqn:Ht; try discriminate Hty.
  - eexists _, _. split; [apply TokenIn_type2; assumption|].
    split; [reflexivity|]. split; [|exact Hok].
    cbn [UpdateHatSwitch set_data data power brake hatswitch buttons].
    rewrite hat_nibble. unfold dct01_buttons.
    repeat apply Forall_cons_2; try apply Forall_nil_2;
      unfold is_byte in *; lia.
  - eexists _, _. split; [apply TokenIn_shinkansen; assumption|].
    split; [reflexivity|]. split; [|exact Hok].
    cbn [UpdateHatSwitch set_data data power brake hatswitch buttons].
    rewrite hat_nibble.
    repeat apply Forall_cons_2; try apply Forall_nil_2;
      unfold is_byte in *; lia.
Qed.

(** X5: when the state's fields are within their widths, every byte
    [TokenIn] writes for a supported model is a byte (0..255), so the stores
    into the [u8] buffer lose nothing, and the state it leaves is within its
    widths too. *)
Theorem report_is_bytes (s : MasconState) (buf : list Z) (len : Z) :
  state_ok s ->
  supported (type s) = true ->
  (6 <= length buf)%nat ->
  exists s' r,
    TokenIn s buf len = Some (s', r ++ drop 6 buf, 6) /\
    length r = 6%nat /\ Forall is_byte r /\ state_ok s'.
Proof. exact (TokenIn_bytes s buf len). Qed.

(** ** What every reachable state satisfies *)

Lemma SetBindValue_static (s : MasconState) (i : Z) (v : spec_float) :
  type (SetBindValue s i v) = type s /\
  port (SetBindValue s i v) = port s /\
  passthrough (SetBindValue s i v) = passthrough s.
Proof.
  unfold SetBindValue.
  destruct (control_of_index i) as [[]|]; try destruct (f32_ge v f32_half);
    repeat split.
Qed.

Lemma step_ok (s s' : MasconState) (c : call) :
  step s c = Some s' ->
  state_ok s ->
  state_ok s' /\ type s' = type s /\ port s' = port s /\
  passthrough s' = passthrough s.
Proof.
  intros Hstep Hok. destruct c as [i v| |buf len]; cbn [step] in Hstep.
  - injection Hstep as <-. split; [apply SetBindValue_ok; exact Hok|].
    apply SetBindValue_static.
  - injection Hstep as <-. split; [|repeat split].
    destruct Hok as (Hp & Hb & Hh & Hbt). unfold state_ok.
    cbn [Reset set_data data with_power with_brake power brake hatswitch
           buttons]. lia.
  - destruct (TokenIn s buf len) as [[[s1 b1] r1]|] eqn:Heq;
      [|discriminate Hstep].
    cbn in Hstep. injection Hstep as <-.
    rewrite (TokenIn_state s s1 buf b1 len r1 Heq).
    destruct Hok as (Hp & Hb & Hh & Hbt).
    split; [apply UpdateHatSwitch_ok; lia|repeat split].
Qed.

Lemma run_ok_from (calls : list call) :
  forall s s',
    run s calls = Some s' ->
    state_ok s ->
    state_ok s' /\ type s' = type s /\ port s' = port s /\
    passthrough s' = passthrough s.
Proof.
  induction calls as [|c rest IH]; intros s s' Hrun Hok; cbn [run] in Hrun.
  - injection Hrun as <-. repeat split; apply Hok.
  - destruct (step s c) as [s1|] eqn:Hstep; [|discriminate Hrun].
    cbn in Hrun.
    destruct (step_ok s s1 c Hstep Hok) as (Hok1 & Ht1 & Hp1 & Hpt1).
    destruct (IH s1 s' Hrun Hok1) as (Hok' & Ht' & Hp' & Hpt').
    repeat split; try apply Hok'; congruence.
Qed.

(** X6: whatever sequence of [SetBindValue] (any index, any float, NaN and
    infinities included), [Reset] and [TokenIn] calls follows construction,
    the state keeps power and brake within 0..255, [hatswitch] within 0..8
    and no bit above the six buttons set, and the model and port chosen at
    construction never change. *)
Theorem run_ok (port_ : Z) (type_ : MasconTypes) (calls : list call)
    (s : MasconState) :
  run (MasconState_init port_ type_) calls = Some s ->
  state_ok s /\ type s = type_ /\ port s = port_ /\ passthrough s = false.
Proof.
  intros Hrun.
  apply (run_ok_from calls (MasconState_init port_ type_) s Hrun).
  unfold state_ok, MasconState_init. cbn. lia.
Qed.

(** ** Buttons through the binding contract *)

Lemma f32_valid_mantissa (s : bool) (m : positive) (e : Z) :
  f32_valid (S754_finite s m e) = true ->
  -149 <= e /\ Z.pos m < 2 ^ 24 /\ (-149 < e -> 2 ^ 23 <= Z.pos m).
Proof.
  unfold f32_valid, valid_binary, bounded, canonical_mantissa.
  intros Hv. apply andb_true_iff in Hv as [Hc _].
  apply Z.eqb_eq in Hc.
  unfold fexp, emin, f32_prec, f32_emax in Hc.
  pose proof (digits2_pos_bounds m) as [Hlo Hhi].
  assert (Hd : Z.pos (digits2_pos m) <= 24) by lia.
  split; [lia|]. split.
  - assert (2 ^ Z.pos (digits2_pos m) <= 2 ^ 24)
      by (apply Z.pow_le_mono_r; lia).
    lia.
  - intros He. assert (Hd' : Z.pos (digits2_pos m) = 24) by lia.
    rewrite Hd' in Hlo. exact Hlo.
Qed.

Lemma f32_ge_half_pressed (v : spec_float) :
  f32_valid v = true -> f32_ge v f32_half = pressed v.
Proof.
  intros Hvalid.
  change f32_half with (S754_finite false 8388608 (-24)).
  destruct v as [s|s| |s m e];
    [destruct s; reflexivity | destruct s; reflexivity | reflexivity | ].
  destruct s.
  - cbn [f32_ge SFleb SFcompare pressed]. symmetry.
    apply not_true_is_false. rewrite Qle_bool_iff.
    unfold B2Q, Qle, inject_Z. destruct e; cbn [Qnum Qden]; lia.
  - cbn [f32_ge SFleb SFcompare].
    destruct (f32_valid_mantissa false m e Hvalid) as (Hemin & Hhi & Hlo).
    unfold pressed. symmetry.
    destruct (Z.compare_spec (-24) e) as [He|He|He].
    + subst e. cbn [B2Q].
      change (Pos.compare_cont Eq 8388608 m) with (8388608 ?= m)%positive.
      destruct (Pos.compare_spec 8388608 m) as [Hm|Hm|Hm].
      * apply Qle_bool_iff. unfold Qle. cbn [Qnum Qden]. lia.
      * apply Qle_bool_iff. unfold Qle. cbn [Qnum Qden]. lia.
      * apply not_true_is_false. rewrite Qle_bool_iff.
        unfold Qle. cbn [Qnum Qden]. lia.
    + specialize (Hlo ltac:(lia)).
      apply Qle_bool_iff. unfold B2Q, Qle, inject_Z.
      destruct e as [|p|q]; cbn [Qnum Qden].
      * lia.
      * assert (0 < 2 ^ Z.pos p) by (apply Z.pow_pos_nonneg; lia). nia.
      * rewrite Pos2Z.inj_pow.
        assert (2 ^ Z.pos q <= 2 ^ 23) by (apply Z.pow_le_mono_r; lia).
        lia.
    + apply not_true_is_false. rewrite Qle_bool_iff.
      destruct e as [|p|q]; try lia.
      unfold B2Q, Qle. cbn [Qnum Qden]. rewrite Pos2Z.inj_pow.
      assert (2 ^ 25 <= 2 ^ Z.pos q) by (apply Z.pow_le_mono_r; lia).
      lia.
Qed.

Lemma button_cases (i : Z) :
  In i button_indices ->
  control_of_index i = Some CID_MC_B \/ control_of_index i = Some CID_MC_A \/
  control_of_index i = Some CID_MC_C \/ control_of_index i = Some CID_MC_D \/
  control_of_index i = Some CID_MC_SELECT \/
  control_of_index i = Some CID_MC_START.
Proof.
  cbn. intros [<-|[<-|[<-|[<-|[<-|[<-|[]]]]]]]; auto 10.
Qed.

Lemma GetBindValue_button (s : MasconState) (i : Z) :
  In i button_indices ->
  GetBindValue s i =
    if negb (button_at (buttons (data s)) i =? 0) then f32_one else f32_zero.
Proof.
  intros Hi. unfold GetBindValue.
  destruct (button_cases i Hi) as [H|[H|[H|[H|[H|H]]]]]; rewrite H;
    reflexivity.
Qed.

Lemma SetBindValue_button (s : MasconState) (i : Z) (v : spec_float) :
  In i button_indices ->
  SetBindValue s i v =
    set_data s
      (with_buttons (data s)
         (if f32_ge v f32_half
          then Z.land (Z.lor (buttons (data s)) (button_mask i)) 0xFF
          else Z.land
                 (Z.land (buttons (data s))
                    (Z.lxor (button_mask i) 0xFFFFFFFF)) 0xFF)).
Proof.
  intros Hi. unfold SetBindValue.
  destruct (button_cases i Hi) as [H|[H|[H|[H|[H|H]]]]]; rewrite H;
    destruct (f32_ge v f32_half); reflexivity.
Qed.

(** X7: a button binding reads 1.0 after a write exactly when the written
    float is at least one half: a finite value by the number it denotes,
    plus infinity always, minus infinity and NaN never; otherwise it reads
    0.0. *)
Theorem button_round_trip (s : MasconState) (i : Z) (v : spec_float) :
  cid CID_MC_B <= i <= cid CID_MC_START ->
  0 <= buttons (data s) < 256 ->
  f32_valid v = true ->
  GetBindValue (SetBindValue s i v) i =
    if pressed v then f32_one else f32_zero.
Proof.
  intros Hi Hb Hvalid.
  assert (Hin : In i button_indices).
  { cbn in Hi |- *. lia. }
  rewrite SetBindValue_button, GetBindValue_button by exact Hin.
  rewrite (f32_ge_half_pressed v Hvalid).
  destruct (button_write_facts (buttons (data s)) i Hb Hin)
    as (Hon & Hoff & _).
  cbn [set_data data with_buttons buttons].
  destruct (pressed v).
  - apply Z.eqb_neq in Hon. rewrite Hon. reflexivity.
  - rewrite Hoff. reflexivity.
Qed.

(** X8: the twelve bindings are independent: writing one binding, whatever
    the value, leaves what every other binding index reads unchanged. *)
Theorem bindings_independent (s : MasconState) (i j : Z) (v : spec_float) :
  i <> j ->
  0 <= buttons (data s) < 256 ->
  GetBindValue (SetBindValue s i v) j = GetBindValue s j.
Proof.
  intros Hij Hb.
  destruct (control_of_index i) as [ci|] eqn:Hci;
    [|unfold SetBindValue; rewrite Hci; reflexivity].
  destruct (control_of_index j) as [cj|] eqn:Hcj;
    [|unfold GetBindValue; rewrite Hcj; reflexivity].
  pose proof (button_index_of i ci Hci) as Hini.
  pose proof (button_index_of j cj Hcj) as Hinj.
  pose proof (control_of_index_cid i ci Hci) as Ei.
  pose proof (control_of_index_cid j cj Hcj) as Ej.
  assert (Hne : ci <> cj) by congruence.
  destruct ci;
    try (unfold SetBindValue, GetBindValue; rewrite Hci, Hcj;
         destruct cj; try reflexivity; congruence);
    rewrite SetBindValue_button by exact Hini;
    destruct cj;
    try (unfold GetBindValue; rewrite Hcj; reflexivity);
    try congruence;
    rewrite !GetBindValue_button by exact Hinj;
    cbn [set_data data with_buttons buttons];
    destruct (button_write_facts (buttons (data s)) i Hb Hini)
      as (_ & _ & _ & _ & _ & _ & Hothers);
    destruct (Hothers j Hinj ltac:(congruence)) as [H1 H0];
    (destruct (f32_ge v f32_half); [rewrite H1|rewrite H0]; reflexivity).
Qed.

(** X9: the last write to a binding wins: writing [v] and then [w] to the
    same binding leaves the state that writing [w] alone leaves. *)
Theorem last_write_wins (s : MasconState) (i : Z) (v w : spec_float) :
  0 <= buttons (data s) < 256 ->
  SetBindValue (SetBindValue s i v) i w = SetBindValue s i w.
Proof.
  intros Hb.
  destruct (control_of_index i) as [c|] eqn:Hc;
    [|unfold SetBindValue; rewrite Hc; reflexivity].
  pose proof (button_index_of i c Hc) as Hin.
  destruct c;
    try (unfold SetBindValue; rewrite Hc; reflexivity);
    rewrite !SetBindValue_button by exact Hin;
    cbn [set_data data with_buttons buttons hat_left hat_right hat_up
           hat_down power brake hatswitch port type passthrough];
    destruct (button_write_facts (buttons (data s)) i Hb Hin)
      as (_ & _ & _ & _ & _ & (H11 & H01 & H10 & H00) & _);
    destruct (f32_ge v f32_half), (f32_ge w f32_half);
    rewrite ?H11, ?H01, ?H10, ?H00; reflexivity.
Qed.

(** ** Writing back what was read *)

Lemma axis_get_set (raw : Z) :
  0 <= raw <= 255 -> axis_input (f32_div (f32_of_Z raw) f32_255) = raw.
Proof.
  intros Hraw. apply Z.eqb_eq.
  apply (Zrange_forallb axis_get_set_check 0 256); [|lia].
  vm_compute. reflexivity.
Qed.

Lemma hat_get_set (b : bool) : hat_input (f32_of_bool b) = b.
Proof. destruct b; vm_compute; reflexivity. Qed.

(** X10: writing to a binding the value just read from it changes nothing:
    for a state within its widths whose [hatswitch] agrees with the flags,
    [SetBindValue s i (GetBindValue s i)] is [s], at every index. *)
Theorem set_of_get_identity (s : MasconState) (i : Z) :
  state_ok s ->
  hat_fresh s ->
  SetBindValue s i (GetBindValue s i) = s.
Proof.
  intros (Hp & Hb & Hh & Hbt) Hfresh.
  destruct (control_of_index i) as [c|] eqn:Hc;
    [|unfold SetBindValue; rewrite Hc; reflexivity].
  pose proof (button_index_of i c Hc) as Hin.
  destruct s as [pt ty pa [hl hr hu hd pw br hs bt]].
  unfold hat_fresh in Hfresh. cbn [data hatswitch hat_up hat_down hat_left
    hat_right power brake buttons] in *.
  destruct c;
    try (unfold SetBindValue, GetBindValue; rewrite Hc;
         cbn [data power brake hat_up hat_down hat_left hat_right];
         rewrite ?axis_get_set by lia; rewrite ?hat_get_set;
         unfold UpdateHatSwitch, set_data, with_power, with_brake,
           with_hat_up, with_hat_down, with_hat_left, with_hat_right;
         cbn [data port type passthrough hat_left hat_right hat_up hat_down
                power brake hatswitch buttons];
         rewrite <- ?Hfresh; reflexivity);
    rewrite SetBindValue_button, GetBindValue_button by exact Hin;
    cbn [data set_data with_buttons port type passthrough hat_left hat_right
           hat_up hat_down power brake hatswitch buttons];
    destruct (button_write_facts bt i ltac:(lia) Hin)
      as (_ & _ & Hclr & Hset & _);
    (destruct (Z.eqb_spec (button_at bt i) 0) as [E|E]; cbn [negb];
     [ change (f32_ge f32_zero f32_half) with false; cbv iota;
       rewrite (Hclr E); reflexivity
     | change (f32_ge f32_one f32_half) with true; cbv iota;
       rewrite (Hset E); reflexivity ]).
Qed.

(** ** Hats through the binding contract *)

(** The valid floats of the unit interval: a zero, or a positive mantissa
    over a power of two that is at least as large. *)
Lemma unit_interval_cases (v : spec_float) :
  f32_valid v = true ->
  f32_finite v = true ->
  (0 <= B2Q v)%Q ->
  (B2Q v <= 1)%Q ->
  (exists s, v = S754_zero s) \/
  (exists m q, v = S754_finite false m (Z.neg q) /\ Z.pos m <= 2 ^ Z.pos q).
Proof.
  intros Hvalid Hfin Hlo Hhi.
  destruct v as [s|s| |s m e]; try discriminate Hfin; [left; eauto|].
  right. destruct s.
  { exfalso. revert Hlo. unfold B2Q, Qle, inject_Z.
    destruct e; cbn [Qnum Qden]; lia. }
  destruct e as [|p|q].
  - exfalso. pose proof (f32_valid_exponent m 0 Hvalid ltac:(lia)).
    revert Hhi. unfold B2Q, Qle, inject_Z. cbn [Qnum Qden]. lia.
  - exfalso. pose proof (f32_valid_exponent m (Z.pos p) Hvalid ltac:(lia)).
    assert (0 < 2 ^ Z.pos p) by (apply Z.pow_pos_nonneg; lia).
    revert Hhi. unfold B2Q, Qle, inject_Z. cbn [Qnum Qden]. nia.
  - exists m, q. split; [reflexivity|].
    revert Hhi. unfold B2Q, Qle. cbn [Qnum Qden].
    rewrite Pos2Z.inj_pow. lia.
Qed.

Lemma GetBindValue_SetBindValue_hat (s : MasconState) (i : Z)
    (v : spec_float) :
  cid CID_MC_UP <= i <= cid CID_MC_LEFT ->
  GetBindValue (SetBindValue s i v) i = f32_of_bool (hat_input v).
Proof.
  cbn [cid]. intros Hi.
  assert (i = 2 \/ i = 3 \/ i = 4 \/ i = 5) as [-> | [-> | [-> | ->]]] by lia;
    reflexivity.
Qed.

Lemma land_byte (a : Z) : 0 <= a <= 255 -> Z.land a 0xFF = a.
Proof.
  intros Ha. change 0xFF with (Z.ones 8). rewrite Z.land_ones by lia.
  apply Z.mod_small. lia.
Qed.

Lemma hat_input_nonzero (v : spec_float) :
  hat_input v = negb (lroundf (f32_mul v f32_255) <=? 0).
Proof.
  unfold hat_input, scaled_input.
  pose proof (clamp_range (lroundf (f32_mul v f32_255))) as Hr.
  rewrite land_byte by exact Hr.
  unfold clamp in *.
  destruct (Z.ltb_spec (lroundf (f32_mul v f32_255)) 0);
    [|destruct (Z.ltb_spec 255 (lroundf (f32_mul v f32_255)))]; lia.
Qed.

(** X11: a hat binding reads back 1.0 or 0.0 and its threshold is not the
    buttons' one half: within the unit interval every value from 1/255 up
    sets the flag (so 0.01 holds a direction and would not press a button),
    and every value up to 1/1024 clears it. *)
Theorem hat_threshold (s : MasconState) (i : Z) (v : spec_float) :
  cid CID_MC_UP <= i <= cid CID_MC_LEFT ->
  f32_valid v = true ->
  f32_finite v = true ->
  (0 <= B2Q v)%Q ->
  (B2Q v <= 1)%Q ->
  GetBindValue (SetBindValue s i v) i = f32_of_bool (hat_input v) /\
  ((1 # 255 <= B2Q v)%Q -> hat_input v = true) /\
  ((B2Q v <= 1 # 1024)%Q -> hat_input v = false).
Proof.
  intros Hi Hvalid Hfin Hlo Hhi.
  split; [apply GetBindValue_SetBindValue_hat; exact Hi|].
  rewrite hat_input_nonzero.
  destruct (unit_interval_cases v Hvalid Hfin Hlo Hhi)
    as [[sg ->]|(m & q & -> & Hm)].
  - split; [|reflexivity].
    unfold B2Q, Qle. cbn [Qnum Qden]. lia.
  - destruct (lroundf_mul_255 m q Hm) as [Hn0 Hclose].
    assert (HE : 0 < 2 ^ Z.pos q) by (apply Z.pow_pos_nonneg; lia).
    set (n0 := lroundf (f32_mul (S754_finite false m (Z.neg q)) f32_255)) in *.
    unfold B2Q, Qle. cbn [Qnum Qden]. rewrite Pos2Z.inj_pow.
    split; intros Hv.
    + destruct (Z.leb_spec n0 0) as [Hz|Hz]; [|reflexivity].
      assert (n0 = 0) by lia. subst n0. rewrite H in Hclose. lia.
    + destruct (Z.leb_spec n0 0) as [Hz|Hz]; [reflexivity|].
      assert (1 * 2 ^ Z.pos q <= n0 * 2 ^ Z.pos q) by nia. lia.
Qed.

(** ** Out-of-range axis values *)

(** [binary_round_aux_exact] with the sign carried along. *)
Lemma binary_round_aux_signed (sx : bool) (M ex : Z) :
  0 <= M ->
  exists e1 e3 m2 m3,
    e1 = Z.max ex (fexp f32_prec f32_emax (Zdigits2 M + ex)) /\
    e3 = Z.max e1 (fexp f32_prec f32_emax (Zdigits2 m2 + e1)) /\
    0 <= m2 /\ 2 * Z.abs (m2 * 2 ^ (e1 - ex) - M) <= 2 ^ (e1 - ex) /\
    0 <= m3 /\ 0 <= m2 - m3 * 2 ^ (e3 - e1) < 2 ^ (e3 - e1) /\
    binary_round_aux f32_prec f32_emax sx M ex loc_Exact =
      match m3 with
      | Z0 => S754_zero sx
      | Z.pos m =>
          if e3 <=? f32_emax - f32_prec
          then S754_finite sx m e3 else S754_infinity sx
      | Z.neg _ => S754_nan
      end.
Proof.
  intros HM. unfold binary_round_aux.
  destruct (shr_fexp_inv M ex HM) as (mrs1 & e1 & Heq1 & He1 & Hinv1).
  rewrite Heq1.
  assert (Hw1 : 0 < 2 ^ (e1 - ex)) by (apply Z.pow_pos_nonneg; lia).
  destruct (round_nearest_even_inv M _ mrs1 Hw1 Hinv1) as [Hm2 Hclose].
  set (m2 := round_nearest_even (shr_m mrs1) (loc_of_shr_record mrs1)) in *.
  destruct (shr_fexp_inv m2 e1 Hm2) as (mrs2 & e3 & Heq2 & He3 & Hinv2).
  rewrite Heq2.
  exists e1, e3, m2, (shr_m mrs2).
  destruct Hinv2 as (Hm3 & Hrem & _).
  repeat split; try assumption; lia.
Qed.

Lemma round_half_away_sign (s : bool) (m : positive) (e : Z) :
  round_half_away s m e =
    if s then - round_half_away false m e else round_half_away false m e.
Proof. destruct s; reflexivity. Qed.

(** [lroundf (v * 255.0f)] for a [v = +-m * 2^-q] of magnitude up to 2^15:
    the result has the sign of [v], and a magnitude of at least 255 once
    [v] has reached 1. *)
Lemma lroundf_mul_255_wide (s : bool) (m q : positive) :
  Z.pos m <= 32768 * 2 ^ Z.pos q ->
  let r := lroundf (f32_mul (S754_finite s m (Z.neg q)) f32_255) in
  let mag := if s then - r else r in
  0 <= mag /\ (2 ^ Z.pos q <= Z.pos m -> 255 <= mag).
Proof.
  intros Hm. cbn zeta.
  rewrite f32_255_eq. unfold f32_mul, SFmul.
  replace (xorb s false) with s by (destruct s; reflexivity).
  assert (HE : 0 < 2 ^ Z.pos q) by (apply Z.pow_pos_nonneg; lia).
  set (E := 2 ^ Z.pos q) in *.
  set (ex := Z.neg q + -16).
  assert (HM : Z.pos (m * 16711680) = 255 * 65536 * Z.pos m) by lia.
  destruct (binary_round_aux_signed s (Z.pos (m * 16711680)) ex)
    as (e1 & e3 & m2 & m3 & He1 & He3 & Hm2 & Hc1 & Hm3 & Hc2 & Heq); [lia|].
  rewrite Heq. clear Heq. rewrite HM in *.
  set (M := 255 * 65536 * Z.pos m) in *.
  assert (HD : 2 ^ (- ex) = 65536 * E).
  { unfold ex, E. replace (- (Z.neg q + -16)) with (16 + Z.pos q) by lia.
    rewrite Z.pow_add_r by lia. reflexivity. }
  set (D := 2 ^ (- ex)) in *.
  assert (HMD : M < 8388608 * D) by lia.
  (* both shifts stop at or below the integers' unit *)
  assert (Hd1 : Zdigits2 M <= 23 - ex).
  { apply Zdigits2_le; [lia|]. split; [lia|].
    replace (23 - ex) with (23 + - ex) by lia.
    rewrite Z.pow_add_r by lia. fold D. lia. }
  assert (Hr1 : ex <= e1 <= -1).
  { unfold fexp, emin, f32_prec, f32_emax in He1. lia. }
  assert (Hw : 0 < 2 ^ (e1 - ex)) by (apply Z.pow_pos_nonneg; lia).
  assert (Hc1D : 2 ^ (- e1) * 2 ^ (e1 - ex) = D).
  { rewrite <- Z.pow_add_r by lia. unfold D. f_equal. lia. }
  assert (Hc1p : 0 < 2 ^ (- e1)) by (apply Z.pow_pos_nonneg; lia).
  set (w := 2 ^ (e1 - ex)) in *.
  set (c1 := 2 ^ (- e1)) in *.
  assert (HwD : w <= D) by nia.
  assert (Hd2 : Zdigits2 m2 <= 24 - e1).
  { apply Zdigits2_le; [lia|]. split; [lia|].
    assert (Hp : 2 ^ (24 - e1) * w = 16777216 * D).
    { unfold w, D. rewrite <- Z.pow_add_r by lia.
      replace (24 - e1 + (e1 - ex)) with (24 + - ex) by lia.
      rewrite Z.pow_add_r by lia. reflexivity. }
    apply (Z.mul_lt_mono_pos_r w); lia. }
  assert (Hr3 : e1 <= e3 <= 0).
  { unfold fexp, emin, f32_prec, f32_emax in He3. lia. }
  assert (Hw2 : 0 < 2 ^ (e3 - e1)) by (apply Z.pow_pos_nonneg; lia).
  assert (HF : 0 < 2 ^ (- e3)) by (apply Z.pow_pos_nonneg; lia).
  assert (Hc3 : 2 ^ (- e3) * 2 ^ (e3 - e1) = c1).
  { unfold c1. rewrite <- Z.pow_add_r by lia. f_equal. lia. }
  set (w2 := 2 ^ (e3 - e1)) in *.
  set (F := 2 ^ (- e3)) in *.
  assert (HFWD : F * (w2 * w) = D) by (rewrite <- Hc1D, <- Hc3; ring).
  (* bounds on the last mantissa *)
  assert (Hup : m3 * (w2 * w) <= M + w) by nia.
  assert (Hm3F : m3 <= 8388609 * F).
  { apply (Z.mul_le_mono_pos_r _ _ (w2 * w)); [nia|].
    replace (8388609 * F * (w2 * w)) with (8388609 * D)
      by (rewrite <- HFWD; ring).
    lia. }
  assert (Hlow : E <= Z.pos m -> 255 * F <= m3).
  { intros Hone.
    assert (HMlow : 255 * (c1 * w) <= M) by (rewrite Hc1D, HD; unfold M; lia).
    assert (H2 : 255 * c1 <= m2).
    { assert (255 * c1 * w - w < m2 * w) by lia.
      assert ((255 * c1 - 1) * w < m2 * w) by lia.
      assert (255 * c1 - 1 < m2); [|lia].
      apply (Z.mul_lt_mono_pos_r w); lia. }
    rewrite <- Hc3 in H2.
    assert ((255 * F - 1) * w2 < m3 * w2) by nia.
    assert (255 * F - 1 < m3); [|lia].
    apply (Z.mul_lt_mono_pos_r w2); lia. }
  (* the rounded integer *)
  destruct m3 as [|m0|m0]; [| |lia].
  - cbn [lroundf]. split; [destruct s; lia|].
    intros Hone. specialize (Hlow Hone). lia.
  - destruct (Z.leb_spec e3 (f32_emax - f32_prec)) as [_|Hbad];
      [|unfold f32_emax, f32_prec in Hbad; lia].
    cbn [lroundf]. rewrite round_half_away_sign.
    assert (Hmag : 0 <= round_half_away false m0 e3 <= 8388610 /\
                   (E <= Z.pos m -> 255 <= round_half_away false m0 e3)).
    { destruct e3 as [|r|r]; try lia.
      - cbn [round_half_away]. change (2 ^ (- 0)) with 1 in F.
        unfold F in *. split; [lia|]. intros Hone.
        specialize (Hlow Hone). lia.
      - pose proof (round_half_away_bounds m0 r) as Hb. cbn zeta in Hb.
        change (- Z.neg r) with (Z.pos r) in *. fold F in Hb.
        set (n0 := round_half_away false m0 (Z.neg r)) in *.
        split; [|intros Hone; specialize (Hlow Hone); nia].
        split; [lia|]. nia. }
    destruct Hmag as [[Hm0 Hm1] Hm255].
    set (n0 := round_half_away false m0 e3) in *.
    assert (Hrange : (LONG_MIN <=? (if s then - n0 else n0))
                     && ((if s then - n0 else n0) <=? LONG_MAX) = true).
    { unfold LONG_MIN, LONG_MAX. destruct s; lia. }
    rewrite Hrange. destruct s; split; try lia; exact Hm255.
Qed.

Lemma moderate_cases (v : spec_float) :
  f32_valid v = true ->
  f32_finite v = true ->
  (- (32768 # 1) <= B2Q v)%Q ->
  (B2Q v <= 32768 # 1)%Q ->
  (exists s, v = S754_zero s) \/
  (exists s m q,
     v = S754_finite s m (Z.neg q) /\ Z.pos m <= 32768 * 2 ^ Z.pos q).
Proof.
  intros Hvalid Hfin Hlo Hhi.
  destruct v as [s|s| |s m e]; try discriminate Hfin; [left; eauto|].
  right.
  destruct (f32_valid_mantissa s m e Hvalid) as (_ & _ & Hnorm).
  destruct e as [|p|q].
  - exfalso. specialize (Hnorm ltac:(lia)).
    revert Hlo Hhi. unfold B2Q, Qle, inject_Z.
    destruct s; cbn [Qnum Qden Qopp]; lia.
  - exfalso. specialize (Hnorm ltac:(lia)).
    assert (0 < 2 ^ Z.pos p) by (apply Z.pow_pos_nonneg; lia).
    revert Hlo Hhi. unfold B2Q, Qle, inject_Z.
    destruct s; cbn [Qnum Qden Qopp]; nia.
  - exists s, m, q. split; [reflexivity|].
    revert Hlo Hhi. unfold B2Q, Qle.
    destruct s; cbn [Qnum Qden Qopp]; rewrite Pos2Z.inj_pow; lia.
Qed.

Lemma axis_input_of_lroundf (v : spec_float) :
  axis_input v = clamp (lroundf (f32_mul v f32_255)) 0 255.
Proof.
  unfold axis_input, scaled_input. apply u8_of_small, clamp_range.
Qed.

(** X12: an axis saturates at the top: writing any value from 1 up to 2^15
    to the power or the brake binding stores 255, the binding then reads
    exactly 1.0, and the same value written to a hat binding sets the
    flag. *)
Theorem axis_saturates_high (s : MasconState) (i : Z) (v : spec_float) :
  i = cid CID_MC_POWER \/ i = cid CID_MC_BRAKE ->
  f32_valid v = true ->
  f32_finite v = true ->
  (1 <= B2Q v)%Q ->
  (B2Q v <= 32768 # 1)%Q ->
  axis_input v = 255 /\
  SetBindValue s i v =
    set_data s (if i =? cid CID_MC_POWER then with_power (data s) 255
                else with_brake (data s) 255) /\
  GetBindValue (SetBindValue s i v) i = f32_one /\
  hat_input v = true.
Proof.
  intros Hi Hvalid Hfin Hlo Hhi.
  assert (Hax : axis_input v = 255 /\ hat_input v = true).
  { rewrite axis_input_of_lroundf, hat_input_nonzero.
    destruct (moderate_cases v Hvalid Hfin) as [[sg ->]|(sg & m & q & -> & Hm)];
      [revert Hlo; unfold Qle; cbn; lia | exact Hhi
      | exfalso; revert Hlo; unfold B2Q, Qle; cbn [Qnum Qden]; lia | ].
    assert (Hsg : sg = false /\ 2 ^ Z.pos q <= Z.pos m).
    { revert Hlo. unfold B2Q, Qle. destruct sg; cbn [Qnum Qden];
        rewrite ?Pos2Z.inj_pow; lia. }
    destruct Hsg as [-> Hone].
    destruct (lroundf_mul_255_wide false m q Hm) as [_ Hbig].
    specialize (Hbig Hone). cbn iota in Hbig.
    set (r := lroundf (f32_mul (S754_finite false m (Z.neg q)) f32_255)) in *.
    unfold clamp.
    destruct (Z.ltb_spec r 0); [lia|].
    destruct (Z.leb_spec r 0); [lia|].
    destruct (Z.ltb_spec 255 r); split; (reflexivity || lia). }
  destruct Hax as [Hax Hhat].
  split; [exact Hax|]. split; [|split; [|exact Hhat]].
  - destruct Hi as [-> | ->]; unfold SetBindValue;
      cbn [cid control_of_index]; rewrite Hax; reflexivity.
  - destruct Hi as [-> | ->]; unfold SetBindValue, GetBindValue;
      cbn [cid control_of_index]; rewrite Hax; reflexivity.
Qed.

(** X13: an axis saturates at the bottom: writing any value from -2^15 up
    to 0 (negative zero included) to the power or the brake binding stores
    0, the binding then reads exactly 0.0, and the same value written to a
    hat binding clears the flag. *)
Theorem axis_saturates_low (s : MasconState) (i : Z) (v : spec_float) :
  i = cid CID_MC_POWER \/ i = cid CID_MC_BRAKE ->
  f32_valid v = true ->
  f32_finite v = true ->
  (- (32768 # 1) <= B2Q v)%Q ->
  (B2Q v <= 0)%Q ->
  axis_input v = 0 /\
  SetBindValue s i v =
    set_data s (if i =? cid CID_MC_POWER then with_power (data s) 0
                else with_brake (data s) 0) /\
  GetBindValue (SetBindValue s i v) i = f32_zero /\
  hat_input v = false.
Proof.
  intros Hi Hvalid Hfin Hlo Hhi.
  assert (Hax : axis_input v = 0 /\ hat_input v = false).
  { rewrite axis_input_of_lroundf, hat_input_nonzero.
    destruct (moderate_cases v Hvalid Hfin) as [[sg ->]|(sg & m & q & -> & Hm)];
      [exact Hlo | revert Hhi; unfold Qle; cbn; lia
      | split; reflexivity | ].
    assert (Hsg : sg = true).
    { revert Hhi. unfold B2Q, Qle. destruct sg; cbn [Qnum Qden]; lia. }
    subst sg.
    destruct (lroundf_mul_255_wide true m q Hm) as [Hneg _].
    cbn iota in Hneg.
    set (r := lroundf (f32_mul (S754_finite true m (Z.neg q)) f32_255)) in *.
    unfold clamp.
    destruct (Z.leb_spec r 0); [|lia].
    destruct (Z.ltb_spec r 0); [split; reflexivity|].
    destruct (Z.ltb_spec 255 r); [lia|]. split; [lia|reflexivity]. }
  destruct Hax as [Hax Hhat].
  split; [exact Hax|]. split; [|split; [|exact Hhat]].
  - destruct Hi as [-> | ->]; unfold SetBindValue;
      cbn [cid control_of_index]; rewrite Hax; reflexivity.
  - destruct Hi as [-> | ->]; unfold SetBindValue, GetBindValue;
      cbn [cid control_of_index]; rewrite Hax; reflexivity.
Qed.

(** ** Construction and reset *)

(** X14: a freshly constructed device reads 0.0 at every binding index,
    and its first report shows both levers released, a neutral hat and no
    button: [01 79 81 FF 08 00] for Type 2 and [1C 12 FF 08 00 00] for
    Shinkansen, although the stored [hatswitch] is still the 0 of
    initialisation. *)
Theorem fresh_device (port_ : Z) (type_ : MasconTypes) (i : Z)
    (buf : list Z) (len : Z) :
  (6 <= length buf)%nat ->
  GetBindValue (MasconState_init port_ type_) i = f32_zero /\
  data (MasconState_init port_ type_) = data_zero /\
  TokenIn (MasconState_init port_ MT_TYPE2) buf len =
    Some (UpdateHatSwitch (MasconState_init port_ MT_TYPE2),
          [0x01; 0x79; 0x81; 0xFF; 0x08; 0x00] ++ drop 6 buf, 6) /\
  TokenIn (MasconState_init port_ MT_SHINKANSEN) buf len =
    Some (UpdateHatSwitch (MasconState_init port_ MT_SHINKANSEN),
          [0x1C; 0x12; 0xFF; 0x08; 0x00; 0x00] ++ drop 6 buf, 6).
Proof.
  intros Hlen. split; [|split; [reflexivity|split]].
  - unfold GetBindValue.
    destruct (control_of_index i) as [[]|]; try reflexivity;
      cbn [MasconState_init Reset set_data data with_power with_brake
             buttons data_zero];
      unfold button_at; rewrite Z.land_0_l; reflexivity.
  - rewrite TokenIn_type2 by (reflexivity || exact Hlen). reflexivity.
  - rewrite TokenIn_shinkansen by (reflexivity || exact Hlen). reflexivity.
Qed.

(** X15: [Reset] is idempotent and commutes with every write to a hat or
    button binding; after a write to an axis binding it gives what it gives
    without that write. *)
Theorem Reset_composes (s : MasconState) (i : Z) (v : spec_float) :
  Reset (Reset s) = Reset s /\
  Reset (SetBindValue s i v) =
    if (i =? cid CID_MC_POWER) || (i =? cid CID_MC_BRAKE)
    then Reset s
    else SetBindValue (Reset s) i v.
Proof.
  split; [reflexivity|].
  destruct (control_of_index i) as [c|] eqn:Hc.
  - unfold SetBindValue. rewrite Hc.
    pose proof (control_of_index_cid i c Hc) as ->. clear Hc.
    destruct c; cbn [cid Z.eqb Pos.eqb orb]; try reflexivity;
      destruct (f32_ge v f32_half); reflexivity.
  - assert (Hi : i <> 0 /\ i <> 1).
    { split; intros ->; discriminate Hc. }
    destruct (Z.eqb_spec i (cid CID_MC_POWER)); [cbn [cid] in *; lia|].
    destruct (Z.eqb_spec i (cid CID_MC_BRAKE)); [cbn [cid] in *; lia|].
    unfold SetBindValue. rewrite Hc. reflexivity.
Qed.

(** X16: the reset handler releases both levers in the next report and
    keeps the rest of it: on a supported model the report after
    [mascon_handle_reset] has the released notch of the brake and of the
    power table at their positions, and the bytes of the report taken
    before the reset everywhere else. *)
Theorem reset_report (s : MasconState) (buf : list Z) (len : Z) :
  supported (type s) = true ->
  (6 <= length buf)%nat ->
  exists s1 s2 before after,
    TokenIn s buf len = Some (s1, before ++ drop 6 buf, 6) /\
    TokenIn (mascon_handle_reset s) buf len =
      Some (s2, after ++ drop 6 buf, 6) /\
    length before = 6%nat /\ length after = 6%nat /\
    after !! brake_position (type s) =
      Some (notch_lookup (brake_notches (type s)) 0) /\
    after !! power_position (type s) =
      Some (notch_lookup (power_notches (type s)) 0) /\
    forall k, k <> brake_position (type s) -> k <> power_position (type s) ->
              after !! k = before !! k.
Proof.
  intros Hty Hlen. destruct (type s) eqn:Ht; try discriminate Hty.
  - eexists _, _, _, _.
    split; [apply TokenIn_type2; assumption|].
    split; [apply TokenIn_type2; assumption|].
    repeat split.
    intros [|[|[|k]]] H1 H2; cbn in H1, H2; try lia; reflexivity.
  - eexists _, _, _, _.
    split; [apply TokenIn_shinkansen; assumption|].
    split; [apply TokenIn_shinkansen; assumption|].
    repeat split.
    intros [|[|k]] H1 H2; cbn in H1, H2; try lia; reflexivity.
Qed.

(** ** The data handler *)

(** X17: a packet that is not an IN token, or that addresses another
    endpoint than 1, is answered with [USB_RET_STALL] in its status and
    nothing else: the controller state, the buffer and [actual_length] stay
    as they were, on every model and for every buffer size. *)
Theorem handle_data_stall (s : MasconState) (p : USBPacket) :
  pid p <> USB_TOKEN_IN \/ ep_nr p <> 1 ->
  mascon_handle_data s p = Some (s, set_status p USB_RET_STALL).
Proof.
  intros Hp. unfold mascon_handle_data.
  destruct (Z.eqb_spec (pid p) USB_TOKEN_IN) as [Hpid|]; [|reflexivity].
  destruct (Z.eqb_spec (ep_nr p) 1) as [Hep|]; [|reflexivity].
  destruct Hp; contradiction.
Qed.

(** X18: an IN token on endpoint 1 whose buffer holds at least six bytes:
    on a supported model the report replaces the first six bytes,
    [actual_length] grows by exactly 6 and the status is left alone; on any
    other model the buffer and [actual_length] are left alone and the
    status becomes [USB_RET_IOERROR] (taken as non-positive). *)
Theorem handle_data_in (s : MasconState) (p : USBPacket) :
  USB_RET_IOERROR <= 0 ->
  pid p = USB_TOKEN_IN ->
  ep_nr p = 1 ->
  buffer_size p = Z.of_nat (length (buffer_ptr p)) ->
  (6 <= length (buffer_ptr p))%nat ->
  exists p',
    mascon_handle_data s p = Some (UpdateHatSwitch s, p') /\
    pid p' = pid p /\ ep_nr p' = ep_nr p /\ buffer_size p' = buffer_size p /\
    if supported (type s)
    then (exists r, length r = 6%nat /\
                    buffer_ptr p' = r ++ drop 6 (buffer_ptr p)) /\
         actual_length p' = actual_length p + 6 /\
         status p' = status p
    else buffer_ptr p' = buffer_ptr p /\
         actual_length p' = actual_length p /\
         status p' = USB_RET_IOERROR.
Proof.
  intros Herr Hpid Hep Hsize Hlen. unfold mascon_handle_data.
  rewrite Hpid, Z.eqb_refl, Hep. cbn [Z.eqb Pos.eqb].
  destruct (supported (type s)) eqn:Hty.
  - destruct (TokenIn_supported s (buffer_ptr p) (buffer_size p) Hty Hlen)
      as (r & Hr & Heq & _).
    rewrite Heq. cbn.
    eexists. split; [reflexivity|]. cbn.
    repeat split; [exists r; split; [exact Hr|reflexivity]|].
    rewrite Hsize. change (Z.land 6 4294967295) with 6. lia.
  - assert (Hun : type s = MT_RYOJOUHEN \/ type s = MT_COUNT).
    { destruct (type s); try discriminate Hty; auto. }
    rewrite (TokenIn_unsupported s _ _ Hun). cbn.
    destruct (Z.ltb_spec 0 USB_RET_IOERROR); [lia|].
    eexists. split; [reflexivity|]. repeat split.
Qed.

(** X19: the handler bounds the length it reports by [buffer_size] only
    after [TokenIn] has stored its six bytes, so that bound cannot prevent
    an overrun: the call is undefined exactly for an IN token on endpoint 1
    of a supported model with a buffer shorter than six bytes. *)
Theorem handle_data_overrun (s : MasconState) (p : USBPacket) :
  mascon_handle_data s p = None <->
  pid p = USB_TOKEN_IN /\ ep_nr p = 1 /\ supported (type s) = true /\
  (length (buffer_ptr p) < 6)%nat.
Proof.
  unfold mascon_handle_data.
  destruct (Z.eqb_spec (pid p) USB_TOKEN_IN) as [Hpid|Hpid];
    [|split; [discriminate|tauto]].
  destruct (Z.eqb_spec (ep_nr p) 1) as [Hep|Hep];
    [|split; [discriminate|tauto]].
  destruct (TokenIn s (buffer_ptr p) (buffer_size p))
    as [[[s' buf] ret]|] eqn:Heq.
  - cbn. split.
    + destruct (0 <? ret); discriminate.
    + intros (_ & _ & Hshort).
      destruct Hshort as [Hty Hshort].
      rewrite (TokenIn_short s _ _ Hty Hshort) in Heq. discriminate Heq.
  - cbn. split; [|reflexivity]. intros _.
    destruct (supported (type s)) eqn:Hty.
    + destruct (le_lt_dec 6 (length (buffer_ptr p))) as [Hge|Hlt]; [|tauto].
      destruct (TokenIn_supported s (buffer_ptr p) (buffer_size p) Hty Hge)
        as (r & _ & Heq1 & _).
      rewrite Heq1 in Heq. discriminate Heq.
    + rewrite TokenIn_unsupported in Heq
        by (destruct (type s); try discriminate Hty; auto).
      discriminate Heq.
Qed.

(** ** Device creation *)

(** What a successful [CreateDevice] tells about its arguments and result. *)
Lemma CreateDevice_inv (port_ subtype : Z) (s : MasconState) :
  CreateDevice port_ subtype = Some s ->
  (subtype = 0 \/ subtype = 1) /\
  MT_index (type s) = subtype /\
  supported (type s) = true /\
  0 <= usb_desc_parse_dev (type s) /\
  0 <= usb_desc_parse_config /\
  s = MasconState_init port_ (type s).
Proof.
  unfold CreateDevice. cbn [MT_index].
  destruct (Z.eqb_spec subtype 0) as [->|H0].
  - destruct (Z.ltb_spec (usb_desc_parse_dev MT_TYPE2) 0); [discriminate|].
    cbn. destruct (Z.ltb_spec usb_desc_parse_config 0); [discriminate|].
    intros [= <-]. cbn. repeat split; auto; lia.
  - destruct (Z.eqb_spec subtype 1) as [->|H1]; [|discriminate].
    destruct (Z.ltb_spec (usb_desc_parse_dev MT_SHINKANSEN) 0);
      [discriminate|].
    cbn. destruct (Z.ltb_spec usb_desc_parse_config 0); [discriminate|].
    intros [= <-]. cbn. repeat split; auto; lia.
Qed.

(** X20: [CreateDevice] yields a device only for the subtypes 0 (Type 2)
    and 1 (Shinkansen), and only when both descriptor parsers succeed; the
    device is the freshly constructed one of that model.  Every other
    subtype is refused, Ryojouhen's 2 included. *)
Theorem CreateDevice_supported (port_ subtype : Z) (s : MasconState) :
  CreateDevice port_ subtype = Some s ->
  (subtype = 0 \/ subtype = 1) /\
  MT_index (type s) = subtype /\
  supported (type s) = true /\
  0 <= usb_desc_parse_dev (type s) /\
  0 <= usb_desc_parse_config /\
  s = MasconState_init port_ (type s).
Proof. exact (CreateDevice_inv port_ subtype s). Qed.

(** X21: the error return of [TokenIn] is out of reach of created devices:
    whatever calls follow [CreateDevice], a poll into a buffer of at least
    six bytes writes a report of bytes and returns 6. *)
Theorem created_device_reports (port_ subtype : Z) (s0 s : MasconState)
    (calls : list call) (buf : list Z) (len : Z) :
  CreateDevice port_ subtype = Some s0 ->
  run s0 calls = Some s ->
  (6 <= length buf)%nat ->
  exists s' r,
    TokenIn s buf len = Some (s', r ++ drop 6 buf, 6) /\
    length r = 6%nat /\ Forall is_byte r.
Proof.
  intros Hcreate Hrun Hlen.
  destruct (CreateDevice_inv port_ subtype s0 Hcreate)
    as (_ & _ & Hty & _ & _ & Hinit).
  rewrite Hinit in Hrun.
  destruct (run_ok_from calls (MasconState_init port_ (type s0)) s Hrun)
    as (Hok & Htype & _); [unfold state_ok, MasconState_init; cbn; lia|].
  destruct (TokenIn_bytes s buf len Hok) as (s' & r & Heq & Hr & Hb & _);
    [rewrite Htype; exact Hty | exact Hlen |].
  exists s', r. auto.
Qed.

(** ** Every notch can be produced through the bindings *)

Lemma notch_rows (t : MasconTypes) :
  Forall (fun row => 0 <= row.1 <= 255 /\
                     notch_lookup (power_notches t) row.1 = row.2)
    (power_notches t) /\
  Forall (fun row => 0 <= row.1 <= 255 /\
                     notch_lookup (brake_notches t) row.1 = row.2)
    (brake_notches t).
Proof.
  destruct t; split; cbn [power_notches brake_notches];
    repeat first [ apply Forall_nil_2
                 | apply Forall_cons_2; [split; [cbn; lia|reflexivity]|] ].
Qed.

(** X22: every pair of a power notch and a brake notch of a supported
    model can be put on the wire through the binding contract: writing, for
    a row of each table, the float an axis holding that row's threshold
    reads as, and polling, gives the two rows' outputs at the power and the
    brake position of the report. *)
Theorem every_notch_reachable (s : MasconState) (rp rb : Z * Z)
    (buf : list Z) (len : Z) :
  supported (type s) = true ->
  In rp (power_notches (type s)) ->
  In rb (brake_notches (type s)) ->
  (6 <= length buf)%nat ->
  exists s' buf',
    TokenIn
      (SetBindValue
         (SetBindValue s (cid CID_MC_POWER) (axis_reading rp.1))
         (cid CID_MC_BRAKE) (axis_reading rb.1))
      buf len = Some (s', buf', 6) /\
    buf' !! power_position (type s) = Some rp.2 /\
    buf' !! brake_position (type s) = Some rb.2.
Proof.
  intros Hty Hp Hb Hlen.
  destruct (notch_rows (type s)) as [Hrp Hrb].
  rewrite List.Forall_forall in Hrp, Hrb.
  destruct (Hrp rp Hp) as [Hp1 Hp2]. destruct (Hrb rb Hb) as [Hb1 Hb2].
  change (SetBindValue
            (SetBindValue s (cid CID_MC_POWER) (axis_reading rp.1))
            (cid CID_MC_BRAKE) (axis_reading rb.1))
    with (set_data s
            (with_brake (with_power (data s) (axis_input (axis_reading rp.1)))
               (axis_input (axis_reading rb.1)))).
  unfold axis_reading. rewrite !axis_get_set by assumption.
  destruct (type s) eqn:Ht; try discriminate Hty.
  - eexists _, _. split; [apply TokenIn_type2; [exact Ht|exact Hlen]|].
    cbn [power_position brake_position]. split; cbn; f_equal; assumption.
  - eexists _, _. split; [apply TokenIn_shinkansen; [exact Ht|exact Hlen]|].
    cbn [power_position brake_position]. split; cbn; f_equal; assumption.
Qed.

(** ** The bindings table *)

(** X23: the bindings table and the two switches agree: subtypes 0 and 1
    get the same twelve bindings and every other subtype none; the twelve
    have distinct names and distinct indices; an index has a [case] of its
    own in [GetBindValue] and [SetBindValue] exactly when the table lists
    it; and the axes are Power and Brake, nothing else. *)
Theorem Bindings_cover (subtype i : Z) :
  (Bindings subtype = [] <-> subtype <> 0 /\ subtype <> 1) /\
  Bindings 1 = Bindings 0 /\
  length (Bindings 0) = 12%nat /\
  List.NoDup (map bind_index (Bindings 0)) /\
  List.NoDup (map name (Bindings 0)) /\
  (is_Some (control_of_index i) <->
   exists b, In b (Bindings 0) /\ bind_index b = i) /\
  forall b, In b (Bindings 0) ->
            (bind_type b = Axis <->
             bind_index b = cid CID_MC_POWER \/ bind_index b = cid CID_MC_BRAKE).
Proof.
  split; [|split; [reflexivity|split; [reflexivity|]]].
  { unfold Bindings. cbn [MT_index].
    destruct (Z.eqb_spec subtype 0) as [->|H0]; cbn [orb].
    - split; [discriminate|lia].
    - destruct (Z.eqb_spec subtype 1) as [->|H1].
      + split; [discriminate|lia].
      + split; [auto|reflexivity]. }
  split.
  { cbn. repeat (apply List.NoDup_cons; [cbn; lia|]). apply List.NoDup_nil. }
  split.
  { cbn. repeat (apply List.NoDup_cons; [cbn; intuition discriminate|]).
    apply List.NoDup_nil. }
  split.
  - split.
    + intros [c Hc]. apply control_of_index_cid in Hc. subst i.
      assert (Hin : In (cid c) (map bind_index (Bindings 0)))
        by (destruct c; cbn; lia).
      apply in_map_iff in Hin as (b & Hb & Hin). exists b. auto.
    + intros (b & Hin & <-). cbn in Hin.
      repeat (destruct Hin as [<-|Hin]; [eexists; reflexivity|]).
      destruct Hin.
  - intros b Hin. cbn in Hin.
    repeat (destruct Hin as [<-|Hin];
            [cbn; split; [intros; lia || discriminate || auto
                         |intros [?|?]; (reflexivity || discriminate)]|]).
    destruct Hin.
Qed.

(** ** Buttons on the wire *)

Lemma button_wire_checked (b : Z) :
  0 <= b < 256 -> button_wire_check b = true.
Proof.
  intros Hb. apply (Zrange_forallb button_wire_check 0 256); [|lia].
  vm_compute. reflexivity.
Qed.

Lemma button_wire_facts (t : MasconTypes) (b i n : Z) :
  supported t = true ->
  0 <= b < 256 ->
  In i button_indices ->
  let m := button_mask i in
  let on := Z.land (Z.lor b m) 0xFF in
  let off := Z.land (Z.land b (Z.lxor m 0xFFFFFFFF)) 0xFF in
  Z.testbit (remap t on) (wire_bit t i) = true /\
  Z.testbit (remap t off) (wire_bit t i) = false /\
  (0 <= n < 8 -> n <> wire_bit t i ->
   Z.testbit (remap t on) n = Z.testbit (remap t b) n /\
   Z.testbit (remap t off) n = Z.testbit (remap t b) n).
Proof.
  intros Ht Hb Hi m on off.
  pose proof (button_wire_checked b Hb) as Hc.
  unfold button_wire_check in Hc. rewrite forallb_forall in Hc.
  assert (Hin : In t [MT_TYPE2; MT_SHINKANSEN]).
  { destruct t; try discriminate Ht; cbn; auto. }
  specialize (Hc t Hin). rewrite forallb_forall in Hc.
  specialize (Hc i Hi). fold m on off in Hc.
  rewrite !andb_true_iff in Hc. destruct Hc as [[Hon Hoff] Hrest].
  split; [exact Hon|]. split; [apply negb_true_iff; exact Hoff|].
  intros Hn Hne.
  pose proof (Zrange_forallb _ 0 8 Hrest n ltac:(lia)) as Hbit.
  cbn beta in Hbit.
  apply orb_true_iff in Hbit as [Heq|Hbit]; [lia|].
  apply andb_true_iff in Hbit as [H1 H0].
  apply eqb_prop in H1, H0. split; assumption.
Qed.

(** X24: a write to a button binding shows in the report as one bit and
    nothing else: on a supported model the button byte after the write has
    the button's wire bit (bit [index - 6] for Type 2; D, C, B, A, Select,
    Start from bit 0 for Shinkansen) set exactly when the written value
    counts as pressed, its other bits are those of the report before the
    write, and so are the other five bytes. *)
Theorem button_on_wire (s : MasconState) (i n : Z) (v : spec_float)
    (buf : list Z) (len : Z) :
  supported (type s) = true ->
  cid CID_MC_B <= i <= cid CID_MC_START ->
  0 <= buttons (data s) < 256 ->
  f32_valid v = true ->
  (6 <= length buf)%nat ->
  exists s1 s2 before after wb wa,
    TokenIn s buf len = Some (s1, before ++ drop 6 buf, 6) /\
    TokenIn (SetBindValue s i v) buf len = Some (s2, after ++ drop 6 buf, 6) /\
    length before = 6%nat /\ length after = 6%nat /\
    (forall k, k <> buttons_position (type s) -> after !! k = before !! k) /\
    before !! buttons_position (type s) = Some wb /\
    after !! buttons_position (type s) = Some wa /\
    Z.testbit wa (wire_bit (type s) i) = pressed v /\
    (0 <= n < 8 -> n <> wire_bit (type s) i ->
     Z.testbit wa n = Z.testbit wb n).
Proof.
  intros Hty Hi Hb Hvalid Hlen.
  assert (Hin : In i button_indices) by (cbn in Hi |- *; lia).
  destruct (button_wire_facts (type s) (buttons (data s)) i n Hty Hb Hin)
    as (Hon & Hoff & Hrest).
  rewrite SetBindValue_button by exact Hin.
  rewrite (f32_ge_half_pressed v Hvalid).
  destruct (type s) eqn:Ht; try discriminate Hty.
  - eexists _, _, _, _, _, _.
    split; [apply TokenIn_type2; assumption|].
    split; [apply TokenIn_type2; assumption|].
    split; [reflexivity|]. split; [reflexivity|].
    split; [intros [|[|[|[|[|[|k]]]]]] Hk; cbn in Hk; try lia; reflexivity|].
    split; [reflexivity|]. split; [reflexivity|].
    cbn [UpdateHatSwitch set_data data with_buttons buttons].
    cbn [remap] in Hon, Hoff, Hrest.
    destruct (pressed v); (split; [assumption|]); intros Hn Hne;
      destruct (Hrest Hn Hne); assumption.
  - eexists _, _, _, _, _, _.
    split; [apply TokenIn_shinkansen; assumption|].
    split; [apply TokenIn_shinkansen; assumption|].
    split; [reflexivity|]. split; [reflexivity|].
    split; [intros [|[|[|[|[|[|k]]]]]] Hk; cbn in Hk; try lia; reflexivity|].
    split; [reflexivity|]. split; [reflexivity|].
    cbn [UpdateHatSwitch set_data data with_buttons buttons].
    cbn [remap] in Hon, Hoff, Hrest.
    destruct (pressed v); (split; [assumption|]); intros Hn Hne;
      destruct (Hrest Hn Hne); assumption.
Qed.

(** ** One binding, one byte of the report *)

(** X25: each binding owns one byte of the report: on a supported model a
    write to a binding, whatever the value, can change only the byte of its
    control (power, brake, hat or buttons); the other five bytes of the
    next report are those of the report without the write, and a write to
    an index outside the enumeration changes none. *)
Theorem binding_owns_byte (s : MasconState) (i : Z) (v : spec_float)
    (buf : list Z) (len : Z) :
  supported (type s) = true ->
  (6 <= length buf)%nat ->
  exists s1 s2 before after,
    TokenIn s buf len = Some (s1, before ++ drop 6 buf, 6) /\
    TokenIn (SetBindValue s i v) buf len = Some (s2, after ++ drop 6 buf, 6) /\
    length before = 6%nat /\ length after = 6%nat /\
    forall k,
      (forall c, control_of_index i = Some c ->
                 k <> report_position (type s) c) ->
      after !! k = before !! k.
Proof.
  intros Hty Hlen.
  destruct (SetBindValue_static s i v) as (Hst & _).
  destruct (type s) eqn:Ht; try discriminate Hty.
  - eexists _, _, _, _.
    split; [apply TokenIn_type2; assumption|].
    split; [apply TokenIn_type2; assumption|].
    split; [reflexivity|]. split; [reflexivity|].
    intros k Hk. unfold SetBindValue.
    destruct (control_of_index i) as [c|]; [|reflexivity].
    specialize (Hk c eq_refl).
    destruct c; try destruct (f32_ge v f32_half);
      destruct k as [|[|[|[|[|[|k]]]]]]; cbn in Hk; try lia; reflexivity.
  - eexists _, _, _, _.
    split; [apply TokenIn_shinkansen; assumption|].
    split; [apply TokenIn_shinkansen; assumption|].
    split; [reflexivity|]. split; [reflexivity|].
    intros k Hk. unfold SetBindValue.
    destruct (control_of_index i) as [c|]; [|reflexivity].
    specialize (Hk c eq_refl).
    destruct c; try destruct (f32_ge v f32_half);
      destruct k as [|[|[|[|[|[|k]]]]]]; cbn in Hk; try lia; reflexivity.
Qed.

End Platform.

(** * Concrete instances *)

(** The Type 2 power table is not non-decreasing: released (0x00) reads
    0x81 and fully applied (0xFF) reads 0x00. *)
Lemma dct01_power_decreases :
  0 <= 0x00 /\ 0x00 <= 0xFF /\ 0xFF <= 255 /\
  dct01_power 0x00 = 0x81 /\ dct01_power 0xFF = 0x00 /\
  ~ (dct01_power 0x00 <= dct01_power 0xFF).
Proof. repeat split; cbv; congruence. Qed.

Lemma notch_tables_monotone_witness :
  dct01_brake 0x10 <= dct01_brake 0xF0 /\
  dct02_power 0x10 <= dct02_power 0xF0 /\
  dct02_brake 0x10 <= dct02_brake 0xF0 /\
  dct01_power 0xF0 <= dct01_power 0x10.
Proof. apply (notch_tables_monotone 0x10 0xF0); lia. Defined.

(** Power 0xFF on a Type 2 device puts 0x00, not 0x81, in the third byte. *)
Lemma TokenIn_scenario_A_third_byte :
  TokenIn (-5) type2_full_power [0; 0; 0; 0; 0; 0] 6 =
    Some (type2_full_power, [0x01; 0x79; 0x00; 0xFF; 0x08; 0x00], 6) /\
  TokenIn (-5) type2_full_power [0; 0; 0; 0; 0; 0] 6 <>
    Some (type2_full_power, [0x01; 0x79; 0x81; 0xFF; 0x08; 0x00], 6).
Proof. split; [reflexivity|discriminate]. Qed.

Lemma TokenIn_scenario_A_witness :
  exists s' buf',
    TokenIn (-5) type2_full_power [0; 0; 0; 0; 0; 0; 0xAA; 0xBB] 8 =
      Some (s', buf', 6) /\
    take 6 buf' = [0x01; 0x79; 0x00; 0xFF; 0x08; 0x00] /\
    drop 6 buf' = [0xAA; 0xBB].
Proof.
  apply (TokenIn_scenario_A (-5) type2_full_power
           [0; 0; 0; 0; 0; 0; 0xAA; 0xBB] 8);
    first [reflexivity | cbn; lia].
Defined.

Lemma TokenIn_return_witness :
  (exists s' buf' ret,
     TokenIn (-5) type2_full_power [0; 0; 0; 0; 0; 0] 6 = Some (s', buf', ret) /\
     ret = 6) /\
  (exists s' buf' ret,
     TokenIn (-5) shinkansen_sample [0; 0; 0; 0; 0; 0] 6 = Some (s', buf', ret) /\
     ret = 6) /\
  (exists s' buf' ret,
     TokenIn (-5) ryojouhen_sample [0; 0; 0; 0; 0; 0] 6 = Some (s', buf', ret) /\
     ret = -5 /\ ret < 0).
Proof.
  split; [|split].
  - apply (TokenIn_return (-5) type2_full_power [0; 0; 0; 0; 0; 0] 6);
      [lia | cbn; lia].
  - apply (TokenIn_return (-5) shinkansen_sample [0; 0; 0; 0; 0; 0] 6);
      [lia | cbn; lia].
  - apply (TokenIn_return (-5) ryojouhen_sample [0; 0; 0; 0; 0; 0] 6);
      [lia | cbn; lia].
Defined.

Lemma TokenIn_ryojouhen_witness :
  exists s',
    TokenIn (-5) ryojouhen_sample [7; 7; 7] 3 = Some (s', [7; 7; 7], -5) /\
    power (data s') = 0x40 /\
    brake (data s') = 0x20 /\
    hat_up (data s') = true /\
    hat_down (data s') = false /\
    hat_left (data s') = false /\
    hat_right (data s') = false /\
    buttons (data s') = 1 /\
    port s' = 0 /\ type s' = MT_RYOJOUHEN /\ passthrough s' = false /\
    hatswitch (data s') = 0.
Proof. apply (TokenIn_ryojouhen (-5) ryojouhen_sample [7; 7; 7] 3). reflexivity. Defined.

Lemma Reset_frame_witness :
  GetBindValue (Reset shinkansen_sample) (cid CID_MC_POWER) = f32_zero /\
  GetBindValue (Reset shinkansen_sample) (cid CID_MC_BRAKE) = f32_zero /\
  power (data (Reset shinkansen_sample)) = 0 /\
  brake (data (Reset shinkansen_sample)) = 0 /\
  hat_up (data (Reset shinkansen_sample)) = true /\
  hat_down (data (Reset shinkansen_sample)) = false /\
  hat_left (data (Reset shinkansen_sample)) = false /\
  hat_right (data (Reset shinkansen_sample)) = true /\
  hatswitch (data (Reset shinkansen_sample)) = 0 /\
  buttons (data (Reset shinkansen_sample)) = 0x22 /\
  port (Reset shinkansen_sample) = 1 /\
  type (Reset shinkansen_sample) = MT_SHINKANSEN /\
  passthrough (Reset shinkansen_sample) = false /\
  GetBindValue (Reset shinkansen_sample) (cid CID_MC_A) =
    GetBindValue shinkansen_sample (cid CID_MC_A).
Proof. apply (Reset_frame shinkansen_sample (cid CID_MC_A)). cbn. lia. Defined.

Lemma unknown_index_fallback_witness :
  GetBindValue shinkansen_sample 12 = f32_zero /\
  SetBindValue (fun _ => 0) shinkansen_sample 12 f32_one = shinkansen_sample.
Proof.
  apply (unknown_index_fallback (fun _ => 0) shinkansen_sample 12 f32_one).
  unfold LENGTH. lia.
Defined.

Lemma hatswitch_never_stale_witness :
  hat_fresh (SetBindValue (fun _ => 0) shinkansen_sample 4 f32_one) /\
  (forall j w, hat_fresh shinkansen_sample ->
               hat_fresh (SetBindValue (fun _ => 0) shinkansen_sample j w)) /\
  (hat_fresh shinkansen_sample -> hat_fresh (Reset shinkansen_sample)) /\
  TokenIn (-5)
    (set_data shinkansen_sample (with_hatswitch (data shinkansen_sample) 6))
    [0; 0; 0; 0; 0; 0] 6 =
  TokenIn (-5) shinkansen_sample [0; 0; 0; 0; 0; 0] 6 /\
  (forall j,
     GetBindValue
       (set_data shinkansen_sample (with_hatswitch (data shinkansen_sample) 6))
       j =
     GetBindValue shinkansen_sample j) /\
  exists s' buf' ret,
    TokenIn (-5) shinkansen_sample [0; 0; 0; 0; 0; 0] 6 = Some (s', buf', ret) /\
    hat_fresh s' /\
    buf' !! 3%nat = Some 1.
Proof.
  apply (hatswitch_never_stale (-5) (fun _ => 0) shinkansen_sample 4 f32_one 6
           [0; 0; 0; 0; 0; 0] 6); cbn; lia.
Defined.

Lemma button_remap_bijective_witness :
  dct01_buttons 0x22 = 0x22 /\
  (dct01_buttons 0x22 = dct01_buttons 0x09 -> 0x22 = 0x09) /\
  0 <= dct02_buttons 0x22 < 64 /\
  (dct02_buttons 0x22 = dct02_buttons 0x09 -> 0x22 = 0x09) /\
  (exists a, 0 <= a < 64 /\ dct02_buttons a = 0x22) /\
  dct02_buttons 0x22 = 0x28 /\
  Z.testbit (dct02_buttons 0x22) 0 = false /\
  Z.testbit (dct02_buttons 0x22) 1 = false /\
  Z.testbit (dct02_buttons 0x22) 2 = false /\
  Z.testbit (dct02_buttons 0x22) 3 = true /\
  Z.testbit (dct02_buttons 0x22) 4 = false /\
  Z.testbit (dct02_buttons 0x22) 5 = true.
Proof. apply (button_remap_bijective 0x22 0x09); lia. Defined.

Lemma axis_round_trip_witness :
  (Qabs
     (B2Q (GetBindValue
             (SetBindValue (fun _ => 0%Z) shinkansen_sample (cid CID_MC_BRAKE)
                f32_half)
             (cid CID_MC_BRAKE))
      - B2Q f32_half)
   <= 1 # 255)%Q.
Proof.
  apply (axis_round_trip (fun _ => 0%Z) shinkansen_sample (cid CID_MC_BRAKE)
           f32_half);
    [right; reflexivity | reflexivity | reflexivity
    | vm_compute; discriminate | vm_compute; discriminate].
Defined.

(** Half a lever reads back as 128/255. *)
Example axis_half_reads_back :
  GetBindValue
    (SetBindValue (fun _ => 0) shinkansen_sample (cid CID_MC_POWER) f32_half)
    (cid CID_MC_POWER) = S754_finite false 8421505 (-24) /\
  power (data (SetBindValue (fun _ => 0) shinkansen_sample (cid CID_MC_POWER)
                 f32_half)) = 128.
Proof. split; reflexivity. Qed.

(** Before any hat binding is written the stored [hatswitch] is the zero of
    initialisation, and the report still carries 8 for a neutral hat. *)
Example TokenIn_fresh_device :
  TokenIn (-5) (mkState 0 MT_SHINKANSEN false data_zero) [0; 0; 0; 0; 0; 0] 6 =
    Some (mkState 0 MT_SHINKANSEN false
            (mkData false false false false 0 0 8 0),
          [0x1C; 0x12; 0xFF; 0x08; 0x00; 0x00], 6).
Proof. reflexivity. Qed.

(** Shinkansen with the brake fully applied, B pressed and up held. *)
Example TokenIn_shinkansen_sample :
  TokenIn (-5)
    (mkState 0 MT_SHINKANSEN false
       (mkData false false true false 0x00 0xFF 0 (button_mask (cid CID_MC_B))))
    [0; 0; 0; 0; 0; 0] 6 =
    Some (mkState 0 MT_SHINKANSEN false
            (mkData false false true false 0x00 0xFF 0 1),
          [0xFB; 0x12; 0xFF; 0x00; 0x04; 0x00], 6).
Proof. reflexivity. Qed.

(** ** Instances of the further properties *)

Lemma notch_outputs_reached_witness :
  notch_reached dct01_power dct01_power_notches 0x80 /\
  notch_reached dct01_brake dct01_brake_notches 0x80 /\
  notch_reached dct02_power dct02_power_notches 0x80 /\
  notch_reached dct02_brake dct02_brake_notches 0x80.
Proof. apply (notch_outputs_reached 0x80). lia. Defined.

Lemma TokenIn_frame_witness :
  exists s' r,
    length r = 6%nat /\
    TokenIn (-5) shinkansen_sample [0; 0; 0; 0; 0; 0; 7] 7 =
      Some (s', r ++ drop 6 [0; 0; 0; 0; 0; 0; 7], 6) /\
    TokenIn (-5) shinkansen_sample [9; 9; 9; 9; 9; 9] 6 =
      Some (s', r ++ drop 6 [9; 9; 9; 9; 9; 9], 6).
Proof.
  apply (TokenIn_frame (-5) shinkansen_sample [0; 0; 0; 0; 0; 0; 7]
           [9; 9; 9; 9; 9; 9] 7 6); [reflexivity | cbn; lia | cbn; lia].
Defined.

Lemma TokenIn_repeat_witness :
  type2_full_power = UpdateHatSwitch type2_full_power /\
  TokenIn (-5) type2_full_power [0x01; 0x79; 0x00; 0xFF; 0x08; 0x00] 9 =
    Some (type2_full_power, [0x01; 0x79; 0x00; 0xFF; 0x08; 0x00], 6).
Proof.
  apply (TokenIn_repeat (-5) type2_full_power type2_full_power
           [0; 0; 0; 0; 0; 0] [0x01; 0x79; 0x00; 0xFF; 0x08; 0x00] 6 9 6).
  reflexivity.
Defined.

Lemma report_is_bytes_witness :
  exists s' r,
    TokenIn (-5) shinkansen_sample [0; 0; 0; 0; 0; 0] 6 =
      Some (s', r ++ drop 6 [0; 0; 0; 0; 0; 0], 6) /\
    length r = 6%nat /\ Forall is_byte r /\ state_ok s'.
Proof.
  apply (report_is_bytes (-5) shinkansen_sample [0; 0; 0; 0; 0; 0] 6);
    [unfold state_ok; cbn; lia | reflexivity | cbn; lia].
Defined.

Lemma run_ok_witness :
  exists s,
    run (-5) (fun _ => 0) (MasconState_init 1 MT_SHINKANSEN)
      [CallSetBindValue 0 f32_half; CallSetBindValue 7 f32_one;
       CallSetBindValue 3 S754_nan; CallTokenIn [0; 0; 0; 0; 0; 0] 6;
       CallReset] = Some s /\
    state_ok s /\ type s = MT_SHINKANSEN /\ port s = 1 /\
    passthrough s = false.
Proof.
  eexists. split; [reflexivity|].
  apply (run_ok (-5) (fun _ => 0) 1 MT_SHINKANSEN
           [CallSetBindValue 0 f32_half; CallSetBindValue 7 f32_one;
            CallSetBindValue 3 S754_nan; CallTokenIn [0; 0; 0; 0; 0; 0] 6;
            CallReset]).
  reflexivity.
Defined.

Lemma button_round_trip_witness :
  GetBindValue (SetBindValue (fun _ => 0) shinkansen_sample 6 f32_half) 6 =
    f32_one.
Proof.
  apply (button_round_trip (fun _ => 0) shinkansen_sample 6 f32_half);
    [cbn; lia | cbn; lia | reflexivity].
Defined.

Lemma bindings_independent_witness :
  GetBindValue (SetBindValue (fun _ => 0) shinkansen_sample 7 f32_zero) 11 =
    GetBindValue shinkansen_sample 11.
Proof.
  apply (bindings_independent (fun _ => 0) shinkansen_sample 7 11 f32_zero);
    [lia | cbn; lia].
Defined.

Lemma last_write_wins_witness :
  SetBindValue (fun _ => 0)
    (SetBindValue (fun _ => 0) shinkansen_sample 6 f32_one) 6 f32_zero =
  SetBindValue (fun _ => 0) shinkansen_sample 6 f32_zero.
Proof.
  apply (last_write_wins (fun _ => 0) shinkansen_sample 6 f32_one f32_zero).
  cbn. lia.
Defined.

Lemma set_of_get_identity_witness :
  SetBindValue (fun _ => 0) type2_full_power 0
    (GetBindValue type2_full_power 0) = type2_full_power.
Proof.
  apply (set_of_get_identity (fun _ => 0) type2_full_power 0);
    [unfold state_ok; cbn; lia | reflexivity].
Defined.

Lemma hat_threshold_witness :
  GetBindValue
    (SetBindValue (fun _ => 0) type2_full_power 2
       (binary_normalize f32_prec f32_emax 1 (-6) false)) 2 =
    f32_of_bool
      (hat_input (fun _ => 0)
         (binary_normalize f32_prec f32_emax 1 (-6) false)) /\
  ((1 # 255 <= B2Q (binary_normalize f32_prec f32_emax 1 (-6) false))%Q ->
   hat_input (fun _ => 0%Z)
     (binary_normalize f32_prec f32_emax 1 (-6) false) = true) /\
  ((B2Q (binary_normalize f32_prec f32_emax 1 (-6) false) <= 1 # 1024)%Q ->
   hat_input (fun _ => 0%Z)
     (binary_normalize f32_prec f32_emax 1 (-6) false) = false).
Proof.
  apply (hat_threshold (fun _ => 0) type2_full_power 2
           (binary_normalize f32_prec f32_emax 1 (-6) false));
    [cbn; lia | reflexivity | reflexivity
    | vm_compute; discriminate | vm_compute; discriminate].
Defined.

Lemma axis_saturates_high_witness :
  axis_input (fun _ => 0) (f32_of_Z 2) = 255 /\
  SetBindValue (fun _ => 0) shinkansen_sample 0 (f32_of_Z 2) =
    set_data shinkansen_sample (with_power (data shinkansen_sample) 255) /\
  GetBindValue (SetBindValue (fun _ => 0) shinkansen_sample 0 (f32_of_Z 2)) 0 =
    f32_one /\
  hat_input (fun _ => 0) (f32_of_Z 2) = true.
Proof.
  apply (axis_saturates_high (fun _ => 0) shinkansen_sample 0 (f32_of_Z 2));
    [left; reflexivity | reflexivity | reflexivity
    | vm_compute; discriminate | vm_compute; discriminate].
Defined.

Lemma axis_saturates_low_witness :
  axis_input (fun _ => 0) (f32_of_Z (-3)) = 0 /\
  SetBindValue (fun _ => 0) shinkansen_sample 1 (f32_of_Z (-3)) =
    set_data shinkansen_sample (with_brake (data shinkansen_sample) 0) /\
  GetBindValue (SetBindValue (fun _ => 0) shinkansen_sample 1 (f32_of_Z (-3)))
    1 = f32_zero /\
  hat_input (fun _ => 0) (f32_of_Z (-3)) = false.
Proof.
  apply (axis_saturates_low (fun _ => 0) shinkansen_sample 1 (f32_of_Z (-3)));
    [right; reflexivity | reflexivity | reflexivity
    | vm_compute; discriminate | vm_compute; discriminate].
Defined.

Lemma fresh_device_witness :
  GetBindValue (MasconState_init 0 MT_TYPE2) 7 = f32_zero /\
  data (MasconState_init 0 MT_TYPE2) = data_zero /\
  TokenIn (-5) (MasconState_init 0 MT_TYPE2) [0; 0; 0; 0; 0; 0] 6 =
    Some (UpdateHatSwitch (MasconState_init 0 MT_TYPE2),
          [0x01; 0x79; 0x81; 0xFF; 0x08; 0x00] ++ drop 6 [0; 0; 0; 0; 0; 0],
          6) /\
  TokenIn (-5) (MasconState_init 0 MT_SHINKANSEN) [0; 0; 0; 0; 0; 0] 6 =
    Some (UpdateHatSwitch (MasconState_init 0 MT_SHINKANSEN),
          [0x1C; 0x12; 0xFF; 0x08; 0x00; 0x00] ++ drop 6 [0; 0; 0; 0; 0; 0],
          6).
Proof.
  apply (fresh_device (-5) 0 MT_TYPE2 7 [0; 0; 0; 0; 0; 0] 6). cbn. lia.
Defined.

Lemma reset_report_witness :
  exists s1 s2 before after,
    TokenIn (-5) shinkansen_sample [0; 0; 0; 0; 0; 0] 6 =
      Some (s1, before ++ drop 6 [0; 0; 0; 0; 0; 0], 6) /\
    TokenIn (-5) (mascon_handle_reset shinkansen_sample) [0; 0; 0; 0; 0; 0] 6 =
      Some (s2, after ++ drop 6 [0; 0; 0; 0; 0; 0], 6) /\
    length before = 6%nat /\ length after = 6%nat /\
    after !! 0%nat = Some 0x1C /\
    after !! 1%nat = Some 0x12 /\
    forall k, k <> 0%nat -> k <> 1%nat -> after !! k = before !! k.
Proof.
  apply (reset_report (-5) shinkansen_sample [0; 0; 0; 0; 0; 0] 6);
    [reflexivity | cbn; lia].
Defined.

Lemma handle_data_stall_witness :
  mascon_handle_data (-5) 0x69 (-3) shinkansen_sample
    (mkPacket 0xE1 1 [0; 0; 0; 0; 0; 0; 0; 0] 8 0 0) =
  Some (shinkansen_sample,
        set_status (mkPacket 0xE1 1 [0; 0; 0; 0; 0; 0; 0; 0] 8 0 0) (-3)).
Proof.
  apply (handle_data_stall (-5) 0x69 (-3) shinkansen_sample
           (mkPacket 0xE1 1 [0; 0; 0; 0; 0; 0; 0; 0] 8 0 0)).
  left. cbn. lia.
Defined.

Lemma handle_data_in_witness :
  exists p',
    mascon_handle_data (-5) 0x69 (-3) shinkansen_sample
      (mkPacket 0x69 1 [0; 0; 0; 0; 0; 0; 0; 0] 8 0 0) =
      Some (UpdateHatSwitch shinkansen_sample, p') /\
    pid p' = 0x69 /\ ep_nr p' = 1 /\ buffer_size p' = 8 /\
    (exists r, length r = 6%nat /\ buffer_ptr p' = r ++ [0; 0]) /\
    actual_length p' = 0 + 6 /\
    status p' = 0.
Proof.
  apply (handle_data_in (-5) 0x69 (-3) shinkansen_sample
           (mkPacket 0x69 1 [0; 0; 0; 0; 0; 0; 0; 0] 8 0 0));
    [lia | reflexivity | reflexivity | reflexivity | cbn; lia].
Defined.

Lemma CreateDevice_supported_witness :
  (1 = 0 \/ 1 = 1) /\
  MT_index (type (MasconState_init 4 MT_SHINKANSEN)) = 1 /\
  supported (type (MasconState_init 4 MT_SHINKANSEN)) = true /\
  0 <= 0 /\ 0 <= 0 /\
  MasconState_init 4 MT_SHINKANSEN =
    MasconState_init 4 (type (MasconState_init 4 MT_SHINKANSEN)).
Proof.
  apply (CreateDevice_supported (fun _ => 0) 0 4 1
           (MasconState_init 4 MT_SHINKANSEN)).
  reflexivity.
Defined.

Lemma created_device_reports_witness :
  exists s' r,
    TokenIn (-5)
      (SetBindValue (fun _ => 0) (MasconState_init 4 MT_TYPE2) 1 f32_one)
      [0; 0; 0; 0; 0; 0] 6 =
      Some (s', r ++ drop 6 [0; 0; 0; 0; 0; 0], 6) /\
    length r = 6%nat /\ Forall is_byte r.
Proof.
  apply (created_device_reports (-5) (fun _ => 0) (fun _ => 0) 0 4 0
           (MasconState_init 4 MT_TYPE2)
           (SetBindValue (fun _ => 0) (MasconState_init 4 MT_TYPE2) 1 f32_one)
           [CallSetBindValue 1 f32_one] [0; 0; 0; 0; 0; 0] 6);
    [reflexivity | reflexivity | cbn; lia].
Defined.

Lemma every_notch_reachable_witness :
  exists s' buf',
    TokenIn (-5)
      (SetBindValue (fun _ => 0)
         (SetBindValue (fun _ => 0) shinkansen_sample (cid CID_MC_POWER)
            (axis_reading 0x98))
         (cid CID_MC_BRAKE) (axis_reading 0xCA))
      [0; 0; 0; 0; 0; 0] 6 = Some (s', buf', 6) /\
    buf' !! 1%nat = Some 0xA2 /\
    buf' !! 0%nat = Some 0xDF.
Proof.
  apply (every_notch_reachable (-5) (fun _ => 0) shinkansen_sample
           (0x98, 0xA2) (0xCA, 0xDF) [0; 0; 0; 0; 0; 0] 6);
    [reflexivity | cbn; tauto | cbn; tauto | cbn; lia].
Defined.

Lemma button_on_wire_witness :
  exists s1 s2 before after wb wa,
    TokenIn (-5) shinkansen_sample [0; 0; 0; 0; 0; 0] 6 =
      Some (s1, before ++ drop 6 [0; 0; 0; 0; 0; 0], 6) /\
    TokenIn (-5)
      (SetBindValue (fun _ => 0) shinkansen_sample (cid CID_MC_D) f32_one)
      [0; 0; 0; 0; 0; 0] 6 =
      Some (s2, after ++ drop 6 [0; 0; 0; 0; 0; 0], 6) /\
    length before = 6%nat /\ length after = 6%nat /\
    (forall k, k <> 4%nat -> after !! k = before !! k) /\
    before !! 4%nat = Some wb /\
    after !! 4%nat = Some wa /\
    Z.testbit wa 0 = true /\
    (0 <= 3 < 8 -> 3 <> 0 -> Z.testbit wa 3 = Z.testbit wb 3).
Proof.
  apply (button_on_wire (-5) (fun _ => 0) shinkansen_sample (cid CID_MC_D) 3
           f32_one [0; 0; 0; 0; 0; 0] 6);
    [reflexivity | cbn; lia | cbn; lia | reflexivity | cbn; lia].
Defined.

Lemma binding_owns_byte_witness :
  exists s1 s2 before after,
    TokenIn (-5) type2_full_power [0; 0; 0; 0; 0; 0] 6 =
      Some (s1, before ++ drop 6 [0; 0; 0; 0; 0; 0], 6) /\
    TokenIn (-5)
      (SetBindValue (fun _ => 0) type2_full_power (cid CID_MC_BRAKE) f32_half)
      [0; 0; 0; 0; 0; 0] 6 =
      Some (s2, after ++ drop 6 [0; 0; 0; 0; 0; 0], 6) /\
    length before = 6%nat /\ length after = 6%nat /\
    forall k,
      (forall c, control_of_index (cid CID_MC_BRAKE) = Some c ->
                 k <> report_position MT_TYPE2 c) ->
      after !! k = before !! k.
Proof.
  apply (binding_owns_byte (-5) (fun _ => 0) type2_full_power
           (cid CID_MC_BRAKE) f32_half [0; 0; 0; 0; 0; 0] 6);
    [reflexivity | cbn; lia].
Defined.
